(** * funfuzz: outcome classification (jsfunfuzz/jsunhappy.py) and
      shell inspection (js/inspectShell.py)

    A shallow embedding of the two Python modules.  Python integers are [Z],
    [str] values are [string], lists are [list].  Code that can raise returns
    a [result]; code that runs the shell, reads the log or prints threads an
    explicit state.  The modules imported from outside these two files
    ([ntr], [detect_assertions], [detect_interesting_crashes],
    [detect_malloc_errors], [subprocesses]) and the builtins that touch the
    outside world are taken as parameters. *)

From Stdlib Require Import ZArith List String Ascii Bool Lia.
From Stdlib Require Import Floats DecimalString.
Import ListNotations.
Local Open Scope string_scope.
Local Open Scope Z_scope.
Local Open Scope list_scope.

(** ** Exceptions and results *)

Inductive exn : Type :=
| IndexError
| ValueError
| IOError
| AssertionError
| Exception (message : string).

Inductive result (A : Type) : Type :=
| Ok (a : A)
| Raise (e : exn).

Arguments Ok {A} a.
Arguments Raise {A} e.

(** A computation over a state [S] that may raise. *)
Definition M (S A : Type) : Type := S -> result (A * S).

Definition ret {S A} (a : A) : M S A := fun s => Ok (a, s).

Definition bind {S A B} (m : M S A) (k : A -> M S B) : M S B :=
  fun s => match m s with
           | Ok (a, s') => k a s'
           | Raise e => Raise e
           end.

Definition raise {S A} (e : exn) : M S A := fun _ => Raise e.

Declare Scope py_scope.
Delimit Scope py_scope with py.
Notation "x <- m ;; k" := (bind m (fun x => k))
  (at level 61, m at next level, right associativity) : py_scope.
Notation "m ;;; k" := (bind m (fun _ => k))
  (at level 61, right associativity) : py_scope.

(** ** Python list and string primitives used by the two modules *)

(** [xs[i]] for a non-negative literal index. *)
Definition getitem {S A} (xs : list A) (i : nat) : M S A :=
  match nth_error xs i with
  | Some x => ret x
  | None => raise IndexError
  end.

(** The newline character that ends every line the file iterator yields,
    except possibly the last one. *)
Definition nl : string := String (ascii_of_nat 10) EmptyString.

(** [needle in hay] on strings. *)
Fixpoint contains (needle hay : string) : bool :=
  if prefix needle hay then true
  else match hay with
       | EmptyString => false
       | String _ rest => contains needle rest
       end.

(** [s.split(sep, 1)]: cut at the first occurrence of the one-character
    separator; a string without it comes back whole. *)
Fixpoint split_1 (sep : ascii) (s : string) : list string :=
  match s with
  | EmptyString => [EmptyString]
  | String c rest =>
      if Ascii.eqb c sep then [EmptyString; rest]
      else match split_1 sep rest with
           | hd :: tl => String c hd :: tl
           | [] => [String c EmptyString]
           end
  end.

(** [str(n)] for an integer. *)
Definition str (n : Z) : string := NilZero.string_of_int (Z.to_int n).

(** * jsfunfuzz/jsunhappy.py *)

Module jsunhappy.

(** ** The parts of [ntr] the classifier reads *)

Module ntr.
Inductive status : Type := CRASHED | TIMED_OUT | NORMAL | ABNORMAL.

Definition status_eqb (a b : status) : bool :=
  match a, b with
  | CRASHED, CRASHED | TIMED_OUT, TIMED_OUT
  | NORMAL, NORMAL | ABNORMAL, ABNORMAL => true
  | _, _ => false
  end.

(** What [timed_run] returns; the elapsed time is only forwarded to the
    summary line. *)
Record runinfo : Type := {
  sta : status;
  msg : string;
  elapsedtime : float
}.
End ntr.

(** ** Levels of unhappiness

    [(JS_FINE, ..., JS_NEW_ASSERT_OR_CRASH) = range(7)]: in order from most
    expected to least expected. *)

Definition JS_FINE : Z := 0.
Definition JS_TIMED_OUT : Z := 1.
Definition JS_ABNORMAL_EXIT : Z := 2.
Definition JS_DID_NOT_FINISH : Z := 3.
Definition JS_DECIDED_TO_EXIT : Z := 4.
Definition JS_MALLOC_ERROR : Z := 5.
Definition JS_NEW_ASSERT_OR_CRASH : Z := 6.

(** ** The outside world

    [W] is everything outside the interpreter: the file system and the
    baselines held by the detector modules.  Running the command changes it
    (the log is written); the detectors and the file read only look at it. *)

Record Externals (W : Type) : Type := {
  (** [ntr.timed_run(runthis, timeout, logPrefix)] *)
  timed_run : list string -> Z -> string -> W -> result (ntr.runinfo * W);
  (** [open(path, "r")] followed by iteration: the lines of the file, each
      with its newline; [None] when the file cannot be opened *)
  open_lines : string -> W -> option (list string);
  (** [detect_assertions.amiss(logPrefix, verbose)] *)
  detect_assertions_amiss : string -> bool -> W -> bool;
  (** [detect_interesting_crashes.amiss(logPrefix, verbose, msg)] *)
  detect_interesting_crashes_amiss : string -> bool -> string -> W -> bool;
  (** [detect_malloc_errors.amiss(logPrefix)] *)
  detect_malloc_errors_amiss : string -> W -> bool;
  (** [detect_assertions.init(knownPath)] *)
  detect_assertions_init : string -> W -> W;
  (** [detect_interesting_crashes.init(knownPath)] *)
  detect_interesting_crashes_init : string -> W -> W;
  (** the builtin [int(s)] on a string; [None] is ValueError *)
  int : string -> option Z
}.

Arguments timed_run {W}.
Arguments open_lines {W}.
Arguments detect_assertions_amiss {W}.
Arguments detect_interesting_crashes_amiss {W}.
Arguments detect_malloc_errors_amiss {W}.
Arguments detect_assertions_init {W}.
Arguments detect_interesting_crashes_init {W}.
Arguments int {W}.

(** One line printed by [level]:
    ["%s: %s%s (%.1f seconds)" % (logPrefix, amissStr, msg, elapsedtime)].
    [amissStr] is kept unrendered: [None] for the empty string, [Some issues]
    for ["*" + repr(issues) + " "]. *)
Record summary : Type := {
  sum_logPrefix : string;
  sum_amissStr : option (list string);
  sum_msg : string;
  sum_elapsedtime : float
}.

(** The interpreter state: the world and what has been printed so far. *)
Record state (W : Type) : Type := {
  world : W;
  stdout : list summary
}.

Arguments Build_state {W}.
Arguments world {W}.
Arguments stdout {W}.

Section Classifier.

Context {W : Type}.
Variable E : Externals W.

Local Open Scope py_scope.

Definition run_command (runthis : list string) (timeout : Z) (logPrefix : string)
  : M (state W) ntr.runinfo :=
  fun s => match timed_run E runthis timeout logPrefix (world s) with
           | Ok (runinfo, w) => Ok (runinfo, Build_state w (stdout s))
           | Raise e => Raise e
           end.

Definition read_lines (path : string) : M (state W) (list string) :=
  fun s => match open_lines E path (world s) with
           | Some lines => Ok (lines, s)
           | None => Raise IOError
           end.

Definition print (line : summary) : M (state W) unit :=
  fun s => Ok (tt, Build_state (world s) (stdout s ++ [line])).

Definition look (A : Type) (f : W -> A) : M (state W) A :=
  fun s => Ok (f (world s), s).

Definition LOOKING_GOOD : string := ("It's looking good!" ++ nl)%string.
Definition STOPPING : string :=
  ("jsfunfuzz stopping due to above error!" ++ nl)%string.

(** The body of [for line in logfile]: one line against the pair
    [(lev, issues)]. *)
Definition scan_line (acc : Z * list string) (line : string) : Z * list string :=
  if String.eqb line LOOKING_GOOD then (JS_FINE, [])
  else if String.eqb line STOPPING then
    (JS_DECIDED_TO_EXIT, ["jsfunfuzz decided to exit"])
  else acc.

(** Lines 27-37: the level based on the magic strings in the output. *)
Definition scan_log (lines : list string) : Z * list string :=
  fold_left scan_line lines (JS_DID_NOT_FINISH, ["jsfunfuzz didn't finish"]).

(** One guarded [issues.append(text); lev = max(lev, floor)]. *)
Definition note (cond : bool) (text : string) (floor : Z)
  (acc : Z * list string) : Z * list string :=
  if cond then (Z.max (fst acc) floor, snd acc ++ [text]) else acc.

(** Lines 27-54 of [level]: [(lev, issues)] once the run is over and the log
    is read, in world [w]. *)
Definition level_issues (runinfo : ntr.runinfo) (logPrefix : string)
  (lines : list string) (w : W) : Z * list string :=
  let sta := ntr.sta runinfo in
  let msg := ntr.msg runinfo in
  let acc := scan_log lines in
  let acc := note (detect_assertions_amiss E logPrefix true w)
               "unknown assertion" JS_NEW_ASSERT_OR_CRASH acc in
  let acc := note (ntr.status_eqb sta ntr.CRASHED &&
                   detect_interesting_crashes_amiss E logPrefix true msg w)
               "unknown crash" JS_NEW_ASSERT_OR_CRASH acc in
  let acc := note (detect_malloc_errors_amiss E logPrefix w)
               "malloc error" JS_MALLOC_ERROR acc in
  let acc := note (ntr.status_eqb sta ntr.ABNORMAL)
               "abnormal exit" JS_ABNORMAL_EXIT acc in
  let acc := note (ntr.status_eqb sta ntr.TIMED_OUT)
               "timed out" JS_TIMED_OUT acc in
  acc.

Definition level (runthis : list string) (timeout : Z) (logPrefix : string)
  : M (state W) Z :=
  runinfo <- run_command runthis timeout logPrefix ;;
  lines <- read_lines (logPrefix ++ "-out")%string ;;
  acc <- look _ (level_issues runinfo logPrefix lines) ;;
  let '(lev, issues) := acc in
  let amiss := negb (Nat.eqb (List.length issues) 0) in
  let amissStr := if negb amiss then None else Some issues in
  print {| sum_logPrefix := logPrefix; sum_amissStr := amissStr;
           sum_msg := ntr.msg runinfo;
           sum_elapsedtime := ntr.elapsedtime runinfo |} ;;;
  ret lev.

Definition to_int (s : string) : M (state W) Z :=
  match int E s with
  | Some n => ret n
  | None => raise ValueError
  end.

Definition interesting (args : list string) (tempPrefix : string)
  : M (state W) bool :=
  a0 <- getitem args 0 ;;
  minimumInterestingLevel <- to_int a0 ;;
  a1 <- getitem args 1 ;;
  timeout <- to_int a1 ;;
  actualLevel <- level (skipn 3 args) timeout tempPrefix ;;
  ret (actualLevel >=? minimumInterestingLevel).

Definition initWithKnownPath (knownPath : string) : M (state W) unit :=
  fun s =>
    let w := detect_assertions_init E knownPath (world s) in
    let w := detect_interesting_crashes_init E knownPath w in
    Ok (tt, Build_state w (stdout s)).

Definition init (args : list string) : M (state W) unit :=
  knownPath <- getitem args 2 ;;
  initWithKnownPath knownPath.

End Classifier.

(** ** Vocabulary for the statements *)

(** A line that the scan reacts to. *)
Definition is_marker (line : string) : bool :=
  String.eqb line LOOKING_GOOD || String.eqb line STOPPING.

(** The run started from state [s] ends with [runinfo], leaves the world
    [w], and the log reads back as [lines]. *)
Definition run_gives {W} (E : Externals W) (runthis : list string)
  (timeout : Z) (logPrefix : string) (s : state W)
  (runinfo : ntr.runinfo) (w : W) (lines : list string) : Prop :=
  timed_run E runthis timeout logPrefix (world s) = Ok (runinfo, w) /\
  open_lines E (logPrefix ++ "-out")%string w = Some lines.

(** The line [level] prints for a run. *)
Definition summary_of (runinfo : ntr.runinfo) (logPrefix : string)
  (issues : list string) : summary :=
  {| sum_logPrefix := logPrefix;
     sum_amissStr := match issues with [] => None | _ => Some issues end;
     sum_msg := ntr.msg runinfo;
     sum_elapsedtime := ntr.elapsedtime runinfo |}.

(** The same collaborators with one detector exchanged. *)
Definition with_assertions {W} (E : Externals W)
  (f : string -> bool -> W -> bool) : Externals W :=
  {| timed_run := timed_run E; open_lines := open_lines E;
     detect_assertions_amiss := f;
     detect_interesting_crashes_amiss := detect_interesting_crashes_amiss E;
     detect_malloc_errors_amiss := detect_malloc_errors_amiss E;
     detect_assertions_init := detect_assertions_init E;
     detect_interesting_crashes_init := detect_interesting_crashes_init E;
     int := int E |}.

Definition with_crashes {W} (E : Externals W)
  (f : string -> bool -> string -> W -> bool) : Externals W :=
  {| timed_run := timed_run E; open_lines := open_lines E;
     detect_assertions_amiss := detect_assertions_amiss E;
     detect_interesting_crashes_amiss := f;
     detect_malloc_errors_amiss := detect_malloc_errors_amiss E;
     detect_assertions_init := detect_assertions_init E;
     detect_interesting_crashes_init := detect_interesting_crashes_init E;
     int := int E |}.

Definition with_malloc_errors {W} (E : Externals W)
  (f : string -> W -> bool) : Externals W :=
  {| timed_run := timed_run E; open_lines := open_lines E;
     detect_assertions_amiss := detect_assertions_amiss E;
     detect_interesting_crashes_amiss := detect_interesting_crashes_amiss E;
     detect_malloc_errors_amiss := f;
     detect_assertions_init := detect_assertions_init E;
     detect_interesting_crashes_init := detect_interesting_crashes_init E;
     int := int E |}.

(** [E'] is [E] with the answer of exactly one detector turned from false to
    true at the point where [level] consults it for this run; everything
    else is shared. *)
Inductive escalates {W} (E : Externals W) (runinfo : ntr.runinfo)
  (logPrefix : string) (w : W) : Externals W -> Prop :=
| escalates_assertion (f : string -> bool -> W -> bool) :
    detect_assertions_amiss E logPrefix true w = false ->
    f logPrefix true w = true ->
    escalates E runinfo logPrefix w (with_assertions E f)
| escalates_crash (f : string -> bool -> string -> W -> bool) :
    detect_interesting_crashes_amiss E logPrefix true (ntr.msg runinfo) w
      = false ->
    f logPrefix true (ntr.msg runinfo) w = true ->
    escalates E runinfo logPrefix w (with_crashes E f)
| escalates_malloc (f : string -> W -> bool) :
    detect_malloc_errors_amiss E logPrefix w = false ->
    f logPrefix w = true ->
    escalates E runinfo logPrefix w (with_malloc_errors E f).

(** The state [level] leaves behind: the world after the run and one more
    printed line. *)
Definition after_run {W} (s : state W) (w : W) (runinfo : ntr.runinfo)
  (logPrefix : string) (issues : list string) : state W :=
  {| world := w;
     stdout := stdout s ++ [summary_of runinfo logPrefix issues] |}.

(** ** A small concrete world

    The file system is an association list from paths to lines.  The shell
    under test writes each of its arguments on a line of its own and ends
    with the given status; the detectors give fixed answers. *)

Definition files : Type := list (string * list string).

Fixpoint read (path : string) (fs : files) : option (list string) :=
  match fs with
  | [] => None
  | (p, lines) :: rest => if String.eqb p path then Some lines else read path rest
  end.

Definition digit (c : ascii) : option Z :=
  let n := Z.of_nat (nat_of_ascii c) in
  if (48 <=? n) && (n <=? 57) then Some (n - 48) else None.

Fixpoint digits (acc : Z) (s : string) : option Z :=
  match s with
  | EmptyString => Some acc
  | String c rest =>
      match digit c with
      | Some d => digits (10 * acc + d) rest
      | None => None
      end
  end.

(** Unsigned decimal numerals, which is all the sample runs pass to [int]. *)
Definition numeral (s : string) : option Z :=
  match s with
  | EmptyString => None
  | _ => digits 0 s
  end.

Definition sample_world (status : ntr.status) (assertion crash malloc : bool)
  : Externals files :=
  {| timed_run := fun runthis timeout logPrefix fs =>
       Ok ({| ntr.sta := status; ntr.msg := "done";
              ntr.elapsedtime := 0.5%float |},
           ((logPrefix ++ "-out")%string,
            map (fun arg => (arg ++ nl)%string) runthis) :: fs);
     open_lines := read;
     detect_assertions_amiss := fun _ _ _ => assertion;
     detect_interesting_crashes_amiss := fun _ _ _ _ => crash;
     detect_malloc_errors_amiss := fun _ _ => malloc;
     detect_assertions_init := fun _ fs => fs;
     detect_interesting_crashes_init := fun _ fs => fs;
     int := numeral |}.

Definition start : state files := {| world := []; stdout := [] |}.

(** ** Worlds in which the run or the log read fails *)

Definition with_timed_run {W} (E : Externals W)
  (f : list string -> Z -> string -> W -> result (ntr.runinfo * W))
  : Externals W :=
  {| timed_run := f; open_lines := open_lines E;
     detect_assertions_amiss := detect_assertions_amiss E;
     detect_interesting_crashes_amiss := detect_interesting_crashes_amiss E;
     detect_malloc_errors_amiss := detect_malloc_errors_amiss E;
     detect_assertions_init := detect_assertions_init E;
     detect_interesting_crashes_init := detect_interesting_crashes_init E;
     int := int E |}.

Definition with_open_lines {W} (E : Externals W)
  (f : string -> W -> option (list string)) : Externals W :=
  {| timed_run := timed_run E; open_lines := f;
     detect_assertions_amiss := detect_assertions_amiss E;
     detect_interesting_crashes_amiss := detect_interesting_crashes_amiss E;
     detect_malloc_errors_amiss := detect_malloc_errors_amiss E;
     detect_assertions_init := detect_assertions_init E;
     detect_interesting_crashes_init := detect_interesting_crashes_init E;
     int := int E |}.

(** The command cannot be started. *)
Definition unspawnable_world : Externals files :=
  with_timed_run (sample_world ntr.NORMAL false false false)
    (fun _ _ _ _ => Raise (Exception "cannot start the command")).

(** The run completes but no log can be opened afterwards. *)
Definition unreadable_world : Externals files :=
  with_open_lines (sample_world ntr.NORMAL false false false)
    (fun _ _ => None).

(** The floor that the status alone puts under the level. *)
Definition status_floor (status : ntr.status) : Z :=
  match status with
  | ntr.ABNORMAL => JS_ABNORMAL_EXIT
  | ntr.TIMED_OUT => JS_TIMED_OUT
  | _ => JS_FINE
  end.

End jsunhappy.

(** * js/inspectShell.py *)

Module inspectShell.

(** A pure computation that may raise. *)
Definition and_then {A B} (r : result A) (k : A -> result B) : result B :=
  match r with
  | Ok a => k a
  | Raise e => Raise e
  end.

Notation "x <~ r ;; k" := (and_then r (fun x => k))
  (at level 61, r at next level, right associativity) : py_scope.

(** The keyword arguments of [subprocesses.captureStdout] that this module
    sets; [env = None] is the callee's default. *)
Record capture_kwargs (Env : Type) : Type := {
  combineStderr : bool;
  ignoreStderr : bool;
  ignoreExitCode : bool;
  env : option Env
}.

Arguments Build_capture_kwargs {Env}.
Arguments combineStderr {Env}.
Arguments ignoreStderr {Env}.
Arguments ignoreExitCode {Env}.
Arguments env {Env}.

(** What is imported from [subprocesses], with the [os.path] calls made on
    the shell path. *)
Record Subprocesses (Env : Type) : Type := {
  isWin : bool;
  isMac : bool;
  isARMv7l : bool;
  (** [captureStdout(cmd, ...)]: the captured output and the exit code *)
  captureStdout : list string -> capture_kwargs Env -> result (string * Z);
  envWithPath : string -> Env;
  (** [os.path.dirname(os.path.abspath(path))] *)
  dirname_abspath : string -> string
}.

Arguments isWin {Env}.
Arguments isMac {Env}.
Arguments isARMv7l {Env}.
Arguments captureStdout {Env}.
Arguments envWithPath {Env}.
Arguments dirname_abspath {Env}.

Definition no_kwargs {Env : Type} : capture_kwargs Env :=
  {| combineStderr := false; ignoreStderr := false;
     ignoreExitCode := false; env := None |}.

(** The double quote, for the script text of [queryBuildConfiguration]. *)
Definition dq : string := String (ascii_of_nat 34) EmptyString.

Section Shell.

Context {Env : Type}.
Variable P : Subprocesses Env.

Local Open Scope py_scope.

(** Tests if a binary is 32-bit or 64-bit.  [Ok None] is the function
    running off its end, which in Python returns [None]. *)
Definition archOfBinary (binary : string) : result (option string) :=
  captured <~ captureStdout P ["file"; binary] no_kwargs ;;
  let unsplitFiletype := fst captured in
  match nth_error (split_1 ":" unsplitFiletype) 1 with
  | None => Raise IndexError
  | Some filetype =>
      if isWin P then
        if negb (contains "PE executable for MS Windows (console)" filetype)
        then Raise AssertionError
        else Ok (Some (if contains "Intel 80386 32-bit" filetype
                       then "32" else "64"))
      else
        if contains "universal binary" filetype then
          Raise (Exception
            "I don't know how to deal with multiple-architecture binaries")
        else if contains "32-bit" filetype || contains "i386" filetype then
          if contains "64-bit" filetype then Raise AssertionError
          else Ok (Some "32")
        else if contains "64-bit" filetype then
          if contains "32-bit" filetype then Raise AssertionError
          else Ok (Some "64")
        else Ok None
  end.

(** Constructs default parameters needed to run valgrind with. *)
Definition constructVgCmdList (errorCode : Z) : list string :=
  let vgCmdList := [] in
  let vgCmdList := vgCmdList ++ ["valgrind"] in
  let vgCmdList := if isMac P then vgCmdList ++ ["--dsymutil=yes"]
                   else vgCmdList in
  let vgCmdList := vgCmdList ++ [("--error-exitcode=" ++ str errorCode)%string] in
  let vgCmdList := if negb (isARMv7l P)
                   then vgCmdList ++ ["--smc-check=all-non-file"]
                   else vgCmdList in
  let vgCmdList :=
    vgCmdList ++ ["--vex-iropt-register-updates=allregs-at-mem-access"] in
  let vgCmdList := vgCmdList ++ ["--gen-suppressions=all"] in
  let vgCmdList := vgCmdList ++ ["--leak-check=full"] in
  let vgCmdList := vgCmdList ++ ["--errors-for-leak-kinds=definite"] in
  let vgCmdList := vgCmdList ++ ["--show-leak-kinds=definite"] in
  let vgCmdList := vgCmdList ++ ["--show-possibly-lost=no"] in
  let vgCmdList := vgCmdList ++ ["--num-callers=50"] in
  vgCmdList.

(** Tests the given shell with the given args.  The two [vdump] calls only
    write diagnostics and are left out. *)
Definition testBinary (shellPath : string) (args : list string)
  (useValgrind : bool) : result (string * Z) :=
  let testCmd := (if useValgrind then constructVgCmdList 77 else [])
                 ++ [shellPath] ++ args in
  captured <~ captureStdout P testCmd
    {| combineStderr := true; ignoreStderr := true; ignoreExitCode := true;
       env := Some (envWithPath P (dirname_abspath P shellPath)) |} ;;
  let '(out, rCode) := captured in
  Ok (out, rCode).

(** Returns True if the shell likes the args. *)
Definition shellSupports (shellPath : string) (args : list string)
  : result bool :=
  tested <~ testBinary shellPath args false ;;
  let '(output, retCode) := tested in
  if retCode =? 0 then Ok true
  else if (1 <=? retCode) && (retCode <=? 3) then Ok false
  else Raise (Exception
         ("Unexpected exit code in shellSupports " ++ str retCode)%string).

(** Tests if a binary supports getBuildConfiguration(). *)
Definition testGetBuildConfiguration (s : string) : result bool :=
  shellSupports s ["-e"; "getBuildConfiguration()"].

(** Tests if a binary is a js shell or xpcshell. *)
Definition testJsShellOrXpcshell (s : string) : result string :=
  supported <~ shellSupports s ["-e"; "Components"] ;;
  Ok (if supported : bool then "xpcshell" else "jsShell").

(** Tests if a binary is compiled with specified parameters. *)
Definition queryBuildConfiguration (s parameter : string) : result bool :=
  tested <~ testBinary s
    ["-e"; ("print(getBuildConfiguration()[" ++ dq ++ parameter ++ dq ++ "])")%string]
    false ;;
  let ans := fst tested in
  Ok (contains "true" ans).

End Shell.

(** ** A small concrete collaborator

    Not Windows, not a Mac, not ARM; every captured command prints [output]
    and exits with [code]. *)
Definition sample_shell (output : string) (code : Z) : Subprocesses unit :=
  {| isWin := false; isMac := false; isARMv7l := false;
     captureStdout := fun _ _ => Ok (output, code);
     envWithPath := fun _ => tt;
     dirname_abspath := fun path => path |}.

(** ** The library names fixed when the module is imported

    Lines 17-40, as functions of [os.name], [platform.system()] and
    [isMozBuild64].  A run-time name that no branch assigns is [None]; the
    tuple built from it on line 40 then fails with NameError, which is
    [None] for [ALL_RUN_LIBS]. *)

Section Libraries.

Variables os_name platform_system : string.
Variable isMozBuild64 : bool.

Definition COMPILE_NSPR_LIB : string :=
  if String.eqb os_name "nt"
  then (if isMozBuild64 then "libnspr4.lib" else "nspr4.lib")
  else "libnspr4.a".

Definition COMPILE_PLDS_LIB : string :=
  if String.eqb os_name "nt"
  then (if isMozBuild64 then "libplds4.lib" else "plds4.lib")
  else "libplds4.a".

Definition COMPILE_PLC_LIB : string :=
  if String.eqb os_name "nt"
  then (if isMozBuild64 then "libplc4.lib" else "plc4.lib")
  else "libplc4.a".

Definition RUN_NSPR_LIB : option string :=
  if String.eqb os_name "nt"
  then Some (if isMozBuild64 then "libnspr4.dll" else "nspr4.dll")
  else if String.eqb platform_system "Darwin" then Some "libnspr4.dylib"
  else if String.eqb platform_system "Linux" then Some "libnspr4.so"
  else None.

Definition RUN_PLDS_LIB : option string :=
  if String.eqb os_name "nt"
  then Some (if isMozBuild64 then "libplds4.dll" else "plds4.dll")
  else if String.eqb platform_system "Darwin" then Some "libplds4.dylib"
  else if String.eqb platform_system "Linux" then Some "libplds4.so"
  else None.

Definition RUN_PLC_LIB : option string :=
  if String.eqb os_name "nt"
  then Some (if isMozBuild64 then "libplc4.dll" else "plc4.dll")
  else if String.eqb platform_system "Darwin" then Some "libplc4.dylib"
  else if String.eqb platform_system "Linux" then Some "libplc4.so"
  else None.

Definition ALL_COMPILE_LIBS : string * string * string :=
  (COMPILE_NSPR_LIB, COMPILE_PLDS_LIB, COMPILE_PLC_LIB).

Definition ALL_RUN_LIBS : option (string * string * string) :=
  match RUN_NSPR_LIB, RUN_PLDS_LIB, RUN_PLC_LIB with
  | Some nspr, Some plds, Some plc => Some (nspr, plds, plc)
  | _, _, _ => None
  end.

End Libraries.

(** ** Verification of a compiled shell *)

(** The fields of [sh.buildOptions] that [verifyBinary] reads. *)
Record BuildOptions : Type := {
  enable32 : bool;
  enableDbg : bool;
  enableHardFp : bool;
  enableMoreDeterministic : bool;
  buildWithAsan : bool
}.

(** The compiled shell [sh]: what [sh.getShellBaseTempDirWithName()]
    returns, and its build options. *)
Record CompiledShell : Type := {
  getShellBaseTempDirWithName : string;
  buildOptions : BuildOptions
}.

(** [assert cond]. *)
Definition assert_that (cond : bool) : result unit :=
  if cond then Ok tt else Raise AssertionError.

(** [==] between what [archOfBinary] returns and a string. *)
Definition arch_eqb (arch : option string) (expected : string) : bool :=
  match arch with
  | Some a => String.eqb a expected
  | None => false
  end.

Section Verify.

Context {Env : Type}.
Variable P : Subprocesses Env.
(** [os.path.exists(path)] *)
Variable path_exists : string -> bool.

Local Open Scope py_scope.

(** Tests if the ARM shell is compiled with hardfp support. *)
Definition testIsHardFpShellARM (s : string) : result bool :=
  let readelfBin := "/usr/bin/readelf" in
  if path_exists readelfBin then
    let newEnv := envWithPath P (dirname_abspath P s) in
    captured <~ captureStdout P [readelfBin; "-A"; s]
      {| combineStderr := false; ignoreStderr := false;
         ignoreExitCode := false; env := Some newEnv |} ;;
    let readelfOutput := fst captured in
    Ok (contains "Tag_ABI_VFP_args: VFP registers" readelfOutput)
  else Raise (Exception "readelf is not found.").

(** Verifies that the binary is compiled as intended. *)
Definition verifyBinary (sh : CompiledShell) : result unit :=
  arch <~ archOfBinary P (getShellBaseTempDirWithName sh) ;;
  _ <~ assert_that
         (arch_eqb arch
            (if enable32 (buildOptions sh) then "32" else "64")) ;;
  dbg <~ queryBuildConfiguration P (getShellBaseTempDirWithName sh) "debug" ;;
  _ <~ assert_that (Bool.eqb dbg (enableDbg (buildOptions sh))) ;;
  _ <~ (if isARMv7l P then
          hardfp <~ testIsHardFpShellARM (getShellBaseTempDirWithName sh) ;;
          assert_that (Bool.eqb hardfp (enableHardFp (buildOptions sh)))
        else Ok tt) ;;
  supported <~ testGetBuildConfiguration P (getShellBaseTempDirWithName sh) ;;
  if supported : bool then
    determ <~ queryBuildConfiguration P (getShellBaseTempDirWithName sh)
                "more-deterministic" ;;
    _ <~ assert_that
           (Bool.eqb determ (enableMoreDeterministic (buildOptions sh))) ;;
    asan <~ queryBuildConfiguration P (getShellBaseTempDirWithName sh)
              "asan" ;;
    assert_that (Bool.eqb asan (buildWithAsan (buildOptions sh)))
  else Ok tt.

End Verify.

(** A collaborator with the platform flags given: the [file] utility
    prints [file_output] and exits with 0, every other command prints
    [shell_output] and exits with [code]. *)
Definition sample_probe (win arm : bool) (file_output shell_output : string)
  (code : Z) : Subprocesses unit :=
  {| isWin := win; isMac := false; isARMv7l := arm;
     captureStdout := fun cmd _ =>
       match cmd with
       | "file" :: _ => Ok (file_output, 0)
       | _ => Ok (shell_output, code)
       end;
     envWithPath := fun _ => tt;
     dirname_abspath := fun path => path |}.

End inspectShell.

(** * Properties of the classifier *)

Import jsunhappy.

(** Unfold the decision chain after the scan has been pinned down. *)
Ltac decide_chain :=
  unfold level_issues, note;
  cbn [detect_assertions_amiss detect_interesting_crashes_amiss
       detect_malloc_errors_amiss with_assertions with_crashes
       with_malloc_errors fst snd].

Section ScanFacts.

(** A marker replaces whatever was accumulated before it. *)
Lemma scan_line_marker (acc acc' : Z * list string) (line : string) :
  is_marker line = true -> scan_line acc line = scan_line acc' line.
Proof.
  unfold is_marker, scan_line. intros H.
  destruct (String.eqb line LOOKING_GOOD); [reflexivity|].
  destruct (String.eqb line STOPPING); [reflexivity|discriminate].
Qed.

(** Any other line leaves the accumulated pair alone. *)
Lemma scan_line_other (acc : Z * list string) (line : string) :
  is_marker line = false -> scan_line acc line = acc.
Proof.
  unfold is_marker, scan_line. intros H.
  apply orb_false_iff in H. destruct H as [-> ->]. reflexivity.
Qed.

Lemma scan_marker_free (lines : list string) (acc : Z * list string) :
  forallb (fun l => negb (is_marker l)) lines = true ->
  fold_left scan_line lines acc = acc.
Proof.
  revert acc. induction lines as [|l lines IH]; intros acc H; simpl in *.
  - reflexivity.
  - apply andb_true_iff in H. destruct H as [Hl Hrest].
    apply negb_true_iff in Hl.
    rewrite (scan_line_other _ _ Hl). now apply IH.
Qed.

(** A log with a marker in it splits at its last marker. *)
Lemma last_marker_split (lines : list string) :
  existsb is_marker lines = true ->
  exists before m after,
    lines = before ++ m :: after /\
    is_marker m = true /\
    forallb (fun l => negb (is_marker l)) after = true.
Proof.
  induction lines as [|l lines IH]; simpl; intros H; [discriminate|].
  destruct (existsb is_marker lines) eqn:Hrest.
  - destruct (IH eq_refl) as (before & m & after & -> & Hm & Hafter).
    exists (l :: before), m, after. auto.
  - rewrite orb_false_r in H.
    exists [], l, lines. repeat split; [assumption|].
    clear -Hrest. induction lines as [|x xs IHxs]; simpl in *; [reflexivity|].
    apply orb_false_iff in Hrest. destruct Hrest as [-> Hxs].
    simpl. now apply IHxs.
Qed.

Lemma scan_split (before after : list string) (m : string)
  (acc : Z * list string) :
  forallb (fun l => negb (is_marker l)) after = true ->
  fold_left scan_line (before ++ m :: after) acc
  = scan_line (fold_left scan_line before acc) m.
Proof.
  intros H. rewrite fold_left_app. simpl. now apply scan_marker_free.
Qed.

Lemma not_in_eqb (x : string) (lines : list string) :
  ~ In x lines -> forallb (fun l => negb (String.eqb l x)) lines = true.
Proof.
  induction lines as [|l lines IH]; simpl; intros H; [reflexivity|].
  apply andb_true_iff. split.
  - apply negb_true_iff, String.eqb_neq. intros ->. apply H. now left.
  - apply IH. intros Hin. apply H. now right.
Qed.

Lemma LOOKING_GOOD_is_marker : is_marker LOOKING_GOOD = true.
Proof. reflexivity. Qed.

Lemma STOPPING_is_marker : is_marker STOPPING = true.
Proof. reflexivity. Qed.

Lemma in_marker_exists (x : string) (lines : list string) :
  is_marker x = true -> In x lines -> existsb is_marker lines = true.
Proof.
  intros Hx Hin. apply existsb_exists. exists x. auto.
Qed.

Lemma scan_closed (start0 : Z * list string) (lines : list string) :
  forall acc,
    acc = start0 \/ acc = (JS_FINE, []) \/
    acc = (JS_DECIDED_TO_EXIT, ["jsfunfuzz decided to exit"]) ->
    fold_left scan_line lines acc = start0 \/
    fold_left scan_line lines acc = (JS_FINE, []) \/
    fold_left scan_line lines acc
    = (JS_DECIDED_TO_EXIT, ["jsfunfuzz decided to exit"]).
Proof.
  induction lines as [|l lines IH]; intros acc Hacc; simpl; [assumption|].
  apply IH. unfold scan_line.
  destruct (String.eqb l LOOKING_GOOD); [auto|].
  destruct (String.eqb l STOPPING); auto.
Qed.

(** The scan ends in one of three pairs. *)
Lemma scan_log_cases (lines : list string) :
  scan_log lines = (JS_DID_NOT_FINISH, ["jsfunfuzz didn't finish"]) \/
  scan_log lines = (JS_FINE, []) \/
  scan_log lines = (JS_DECIDED_TO_EXIT, ["jsfunfuzz decided to exit"]).
Proof.
  unfold scan_log. apply scan_closed. now left.
Qed.

End ScanFacts.

Section LevelFacts.

Context {W : Type}.
Variable E : Externals W.

(** [level] on a run that completes and whose log can be opened: the value
    and the printed line are those of [level_issues]. *)
Lemma level_runs runthis timeout logPrefix s runinfo w lines :
  run_gives E runthis timeout logPrefix s runinfo w lines ->
  level E runthis timeout logPrefix s
  = Ok (fst (level_issues E runinfo logPrefix lines w),
        after_run s w runinfo logPrefix
          (snd (level_issues E runinfo logPrefix lines w))).
Proof.
  intros [Hrun Hlog].
  unfold level, bind, run_command, read_lines, look, print, ret, after_run.
  rewrite Hrun. cbn [world stdout]. rewrite Hlog. cbn [world stdout].
  destruct (level_issues E runinfo logPrefix lines w) as [lev issues].
  destruct issues; reflexivity.
Qed.

(** A failed run or an unreadable log makes [level] raise. *)
Lemma level_raises runthis timeout logPrefix s :
  (forall e, timed_run E runthis timeout logPrefix (world s) = Raise e ->
             level E runthis timeout logPrefix s = Raise e) /\
  (forall runinfo w,
      timed_run E runthis timeout logPrefix (world s) = Ok (runinfo, w) ->
      open_lines E (logPrefix ++ "-out")%string w = None ->
      level E runthis timeout logPrefix s = Raise IOError).
Proof.
  split.
  - intros e H. unfold level, bind, run_command. now rewrite H.
  - intros runinfo w H1 H2. unfold level, bind, run_command, read_lines.
    rewrite H1. cbn [world]. now rewrite H2.
Qed.

End LevelFacts.

(** C2: in a log where both markers appear, the scan's result is that of the
    last marker line: the log splits into the lines before it, the marker,
    and marker-free lines after it, and whatever the earlier lines had
    accumulated is overwritten by that marker. *)
Theorem last_marker_wins (lines : list string) :
  In LOOKING_GOOD lines ->
  In STOPPING lines ->
  exists before m after,
    lines = before ++ m :: after /\
    is_marker m = true /\
    forallb (fun l => negb (is_marker l)) after = true /\
    (forall acc, scan_log lines = scan_line acc m) /\
    scan_log lines
    = if String.eqb m LOOKING_GOOD then (JS_FINE, [])
      else (JS_DECIDED_TO_EXIT, ["jsfunfuzz decided to exit"]).
Proof.
  intros Hgood _.
  destruct (last_marker_split lines
              (in_marker_exists _ _ LOOKING_GOOD_is_marker Hgood))
    as (before & m & after & Hsplit & Hm & Hafter).
  exists before, m, after. repeat split; try assumption.
  - intros acc. subst lines. unfold scan_log.
    rewrite (scan_split _ _ _ _ Hafter). now apply scan_line_marker.
  - subst lines. unfold scan_log. rewrite (scan_split _ _ _ _ Hafter).
    unfold scan_line. unfold is_marker in Hm.
    destruct (String.eqb m LOOKING_GOOD); [reflexivity|].
    destruct (String.eqb m STOPPING); [reflexivity|discriminate].
Qed.

Lemma last_marker_wins_witness :
  exists before m after,
    [LOOKING_GOOD; "noise"; STOPPING; "more noise"] = before ++ m :: after /\
    is_marker m = true /\
    forallb (fun l => negb (is_marker l)) after = true /\
    (forall acc,
        scan_log [LOOKING_GOOD; "noise"; STOPPING; "more noise"]
        = scan_line acc m) /\
    scan_log [LOOKING_GOOD; "noise"; STOPPING; "more noise"]
    = if String.eqb m LOOKING_GOOD then (JS_FINE, [])
      else (JS_DECIDED_TO_EXIT, ["jsfunfuzz decided to exit"]).
Proof.
  apply (last_marker_wins [LOOKING_GOOD; "noise"; STOPPING; "more noise"]).
  - simpl. left. reflexivity.
  - simpl. right. right. left. reflexivity.
Defined.

(** Both orders of the two markers, on concrete logs. *)
Example scan_good_then_stopping :
  scan_log [LOOKING_GOOD; STOPPING]
  = (JS_DECIDED_TO_EXIT, ["jsfunfuzz decided to exit"]).
Proof. reflexivity. Qed.

Example scan_stopping_then_good :
  scan_log [STOPPING; LOOKING_GOOD] = (JS_FINE, []).
Proof. reflexivity. Qed.

(** A marker without its newline, as on an unterminated last line, is not a
    marker. *)
Example scan_unterminated_marker :
  scan_log ["It's looking good!"]
  = (JS_DID_NOT_FINISH, ["jsfunfuzz didn't finish"]).
Proof. reflexivity. Qed.

(** C1 (as amended): a run with an empty log and status TIMED_OUT, on which
    the assertion and allocator detectors report nothing, is classified
    JS_DID_NOT_FINISH, the larger of the scan's default and the time-out
    floor, and the issues printed are "jsfunfuzz didn't finish" followed by
    "timed out". *)
Theorem empty_log_timed_out {W} (E : Externals W)
  runthis timeout logPrefix s runinfo w :
  run_gives E runthis timeout logPrefix s runinfo w [] ->
  ntr.sta runinfo = ntr.TIMED_OUT ->
  detect_assertions_amiss E logPrefix true w = false ->
  detect_malloc_errors_amiss E logPrefix w = false ->
  level_issues E runinfo logPrefix [] w
  = (JS_DID_NOT_FINISH, ["jsfunfuzz didn't finish"; "timed out"]) /\
  level E runthis timeout logPrefix s
  = Ok (JS_DID_NOT_FINISH,
        after_run s w runinfo logPrefix
          ["jsfunfuzz didn't finish"; "timed out"]).
Proof.
  intros Hrun Hsta Hassert Hmalloc.
  assert (Hcore : level_issues E runinfo logPrefix [] w
                  = (JS_DID_NOT_FINISH,
                     ["jsfunfuzz didn't finish"; "timed out"])).
  { decide_chain. rewrite Hsta, Hassert, Hmalloc. reflexivity. }
  split; [exact Hcore|].
  rewrite (level_runs E _ _ _ _ _ _ _ Hrun), Hcore. reflexivity.
Qed.

Lemma empty_log_timed_out_witness :
  level_issues (sample_world ntr.TIMED_OUT false false false)
    {| ntr.sta := ntr.TIMED_OUT; ntr.msg := "done";
       ntr.elapsedtime := 0.5%float |}
    "w1" [] [("w1-out", [])]
  = (JS_DID_NOT_FINISH, ["jsfunfuzz didn't finish"; "timed out"]) /\
  level (sample_world ntr.TIMED_OUT false false false) [] 10 "w1" start
  = Ok (JS_DID_NOT_FINISH,
        after_run start [("w1-out", [])]
          {| ntr.sta := ntr.TIMED_OUT; ntr.msg := "done";
             ntr.elapsedtime := 0.5%float |}
          "w1" ["jsfunfuzz didn't finish"; "timed out"]).
Proof.
  apply (empty_log_timed_out
           (sample_world ntr.TIMED_OUT false false false) [] 10 "w1" start).
  - split; reflexivity.
  - reflexivity.
  - reflexivity.
  - reflexivity.
Defined.

(** C1 (as stated) fails: on the sample world, with an empty log, status
    TIMED_OUT and all three detectors silent, [level] returns
    JS_DID_NOT_FINISH, so it does not return JS_TIMED_OUT, and the issues
    are not "did not finish" followed by "timed out": the first one reads
    "jsfunfuzz didn't finish". *)
Lemma empty_log_timed_out_is_not_TIMED_OUT :
  level (sample_world ntr.TIMED_OUT false false false) [] 10 "w1" start
  = Ok (JS_DID_NOT_FINISH,
        {| world := [("w1-out", [])];
           stdout := [ {| sum_logPrefix := "w1";
                          sum_amissStr :=
                            Some ["jsfunfuzz didn't finish"; "timed out"];
                          sum_msg := "done";
                          sum_elapsedtime := 0.5%float |} ] |}) /\
  ~ (exists s',
        level (sample_world ntr.TIMED_OUT false false false) [] 10 "w1" start
        = Ok (JS_TIMED_OUT, s')) /\
  level_issues (sample_world ntr.TIMED_OUT false false false)
    {| ntr.sta := ntr.TIMED_OUT; ntr.msg := "done";
       ntr.elapsedtime := 0.5%float |}
    "w1" [] [("w1-out", [])]
  <> (JS_TIMED_OUT, ["did not finish"; "timed out"]).
Proof.
  split; [reflexivity|]. split.
  - intros [s' H]. discriminate H.
  - discriminate.
Qed.

(** Each guarded step can only raise the level. *)
Lemma note_raises cond text floor acc :
  fst acc <= fst (note cond text floor acc).
Proof. unfold note. destruct cond; simpl; lia. Qed.

Lemma note_mono cond text floor acc acc' :
  fst acc <= fst acc' ->
  fst (note cond text floor acc) <= fst (note cond text floor acc').
Proof. unfold note. destruct cond; simpl; lia. Qed.

(** The classification is monotone in the detector answers. *)
Lemma level_issues_escalates {W} (E E' : Externals W) runinfo logPrefix lines w :
  escalates E runinfo logPrefix w E' ->
  fst (level_issues E runinfo logPrefix lines w)
  <= fst (level_issues E' runinfo logPrefix lines w).
Proof.
  intros H. destruct H as [f Hold Hnew | f Hold Hnew | f Hold Hnew];
    unfold level_issues;
    cbn [detect_assertions_amiss detect_interesting_crashes_amiss
         detect_malloc_errors_amiss with_assertions with_crashes
         with_malloc_errors];
    rewrite Hold, Hnew.
  - repeat apply note_mono. apply note_raises.
  - repeat apply note_mono.
    destruct (ntr.status_eqb (ntr.sta runinfo) ntr.CRASHED); cbn [andb].
    + apply note_raises.
    + apply Z.le_refl.
  - repeat apply note_mono. apply note_raises.
Qed.

(** C3: turning the answer of a single detector from false to true, with the
    run, the log and the other detectors unchanged, never lowers the level
    that [level] returns. *)
Theorem detector_escalation_monotone {W} (E E' : Externals W)
  runthis timeout logPrefix s runinfo w lines :
  run_gives E runthis timeout logPrefix s runinfo w lines ->
  escalates E runinfo logPrefix w E' ->
  exists lev lev' s1 s1',
    level E runthis timeout logPrefix s = Ok (lev, s1) /\
    level E' runthis timeout logPrefix s = Ok (lev', s1') /\
    lev <= lev'.
Proof.
  intros Hrun Hesc.
  assert (Hrun' : run_gives E' runthis timeout logPrefix s runinfo w lines).
  { destruct Hesc; exact Hrun. }
  eexists _, _, _, _. split; [|split].
  - apply (level_runs E _ _ _ _ _ _ _ Hrun).
  - apply (level_runs E' _ _ _ _ _ _ _ Hrun').
  - now apply level_issues_escalates.
Qed.

Lemma detector_escalation_monotone_witness :
  exists lev lev' s1 s1',
    level (sample_world ntr.NORMAL false false false)
      ["It's looking good!"] 10 "w1" start = Ok (lev, s1) /\
    level (with_malloc_errors (sample_world ntr.NORMAL false false false)
             (fun _ _ => true))
      ["It's looking good!"] 10 "w1" start = Ok (lev', s1') /\
    lev <= lev'.
Proof.
  apply (detector_escalation_monotone
           (sample_world ntr.NORMAL false false false)
           (with_malloc_errors (sample_world ntr.NORMAL false false false)
              (fun _ _ => true))
           ["It's looking good!"] 10 "w1" start
           {| ntr.sta := ntr.NORMAL; ntr.msg := "done";
              ntr.elapsedtime := 0.5%float |}
           [("w1-out", [LOOKING_GOOD])] [LOOKING_GOOD]).
  - split; reflexivity.
  - apply escalates_malloc; reflexivity.
Defined.

(** C4: the issue list is empty exactly when the level is JS_FINE, whatever
    the log, the status and the detector answers. *)
Theorem issues_empty_iff_fine {W} (E : Externals W) runinfo logPrefix lines w :
  snd (level_issues E runinfo logPrefix lines w) = [] <->
  fst (level_issues E runinfo logPrefix lines w) = JS_FINE.
Proof.
  unfold level_issues, note.
  destruct (scan_log_cases lines) as [-> | [-> | ->]];
    destruct (detect_assertions_amiss E logPrefix true w);
    destruct (detect_interesting_crashes_amiss E logPrefix true
                (ntr.msg runinfo) w);
    destruct (detect_malloc_errors_amiss E logPrefix w);
    destruct (ntr.sta runinfo);
    cbn; split; intros H; try reflexivity; discriminate H.
Qed.

(** The scan of a log with one kind of marker only, or none. *)
Lemma scan_neither (lines : list string) :
  ~ In LOOKING_GOOD lines -> ~ In STOPPING lines ->
  scan_log lines = (JS_DID_NOT_FINISH, ["jsfunfuzz didn't finish"]).
Proof.
  intros Hgood Hstop. unfold scan_log. apply scan_marker_free.
  pose proof (not_in_eqb _ _ Hgood) as Hg.
  pose proof (not_in_eqb _ _ Hstop) as Hs.
  clear Hgood Hstop. induction lines as [|l lines IH]; simpl in *.
  - reflexivity.
  - apply andb_true_iff in Hg. destruct Hg as [Hg1 Hg2].
    apply andb_true_iff in Hs. destruct Hs as [Hs1 Hs2].
    rewrite (IH Hg2 Hs2), andb_true_r. unfold is_marker.
    apply negb_true_iff in Hg1, Hs1. now rewrite Hg1, Hs1.
Qed.

Lemma scan_only_good (lines : list string) :
  In LOOKING_GOOD lines -> ~ In STOPPING lines ->
  scan_log lines = (JS_FINE, []).
Proof.
  intros Hgood Hstop.
  destruct (last_marker_split lines
              (in_marker_exists _ _ LOOKING_GOOD_is_marker Hgood))
    as (before & m & after & -> & Hm & Hafter).
  unfold scan_log. rewrite (scan_split _ _ _ _ Hafter).
  unfold scan_line. destruct (String.eqb m LOOKING_GOOD) eqn:Hg;
    [reflexivity|].
  unfold is_marker in Hm. rewrite Hg in Hm. cbn [orb] in Hm.
  apply String.eqb_eq in Hm. subst m.
  exfalso. apply Hstop. apply in_or_app. right. now left.
Qed.

Lemma scan_only_stopping (lines : list string) :
  In STOPPING lines -> ~ In LOOKING_GOOD lines ->
  scan_log lines = (JS_DECIDED_TO_EXIT, ["jsfunfuzz decided to exit"]).
Proof.
  intros Hstop Hgood.
  destruct (last_marker_split lines
              (in_marker_exists _ _ STOPPING_is_marker Hstop))
    as (before & m & after & -> & Hm & Hafter).
  unfold scan_log. rewrite (scan_split _ _ _ _ Hafter).
  unfold scan_line. destruct (String.eqb m LOOKING_GOOD) eqn:Hg.
  - apply String.eqb_eq in Hg. subst m.
    exfalso. apply Hgood. apply in_or_app. right. now left.
  - unfold is_marker in Hm. rewrite Hg in Hm. cbn [orb] in Hm.
    now rewrite Hm.
Qed.

(** C5: with status NORMAL and silent detectors, a log with the success
    marker and no self-terminated marker is JS_FINE with no issues; a log
    with the self-terminated marker and no success marker is
    JS_DECIDED_TO_EXIT; a log with neither is JS_DID_NOT_FINISH. *)
Theorem marker_precedence {W} (E : Externals W)
  runthis timeout logPrefix s runinfo w lines :
  run_gives E runthis timeout logPrefix s runinfo w lines ->
  ntr.sta runinfo = ntr.NORMAL ->
  detect_assertions_amiss E logPrefix true w = false ->
  detect_malloc_errors_amiss E logPrefix w = false ->
  (In LOOKING_GOOD lines -> ~ In STOPPING lines ->
   level E runthis timeout logPrefix s
   = Ok (JS_FINE, after_run s w runinfo logPrefix [])) /\
  (In STOPPING lines -> ~ In LOOKING_GOOD lines ->
   level E runthis timeout logPrefix s
   = Ok (JS_DECIDED_TO_EXIT,
         after_run s w runinfo logPrefix ["jsfunfuzz decided to exit"])) /\
  (~ In LOOKING_GOOD lines -> ~ In STOPPING lines ->
   level E runthis timeout logPrefix s
   = Ok (JS_DID_NOT_FINISH,
         after_run s w runinfo logPrefix ["jsfunfuzz didn't finish"])).
Proof.
  intros Hrun Hsta Hassert Hmalloc.
  rewrite (level_runs E _ _ _ _ _ _ _ Hrun).
  assert (Hcore : level_issues E runinfo logPrefix lines w = scan_log lines).
  { decide_chain. rewrite Hsta, Hassert, Hmalloc. reflexivity. }
  rewrite Hcore.
  split; [|split]; intros H1 H2.
  - now rewrite (scan_only_good lines H1 H2).
  - now rewrite (scan_only_stopping lines H1 H2).
  - now rewrite (scan_neither lines H1 H2).
Qed.

Lemma marker_precedence_witness :
  level (sample_world ntr.NORMAL false false false)
    ["It's looking good!"] 10 "w1" start
  = Ok (JS_FINE,
        after_run start [("w1-out", [LOOKING_GOOD])]
          {| ntr.sta := ntr.NORMAL; ntr.msg := "done";
             ntr.elapsedtime := 0.5%float |} "w1" []) /\
  level (sample_world ntr.NORMAL false false false)
    ["jsfunfuzz stopping due to above error!"] 10 "w1" start
  = Ok (JS_DECIDED_TO_EXIT,
        after_run start [("w1-out", [STOPPING])]
          {| ntr.sta := ntr.NORMAL; ntr.msg := "done";
             ntr.elapsedtime := 0.5%float |} "w1"
          ["jsfunfuzz decided to exit"]) /\
  level (sample_world ntr.NORMAL false false false) ["js> 1+1"] 10 "w1" start
  = Ok (JS_DID_NOT_FINISH,
        after_run start [("w1-out", [("js> 1+1" ++ nl)%string])]
          {| ntr.sta := ntr.NORMAL; ntr.msg := "done";
             ntr.elapsedtime := 0.5%float |} "w1"
          ["jsfunfuzz didn't finish"]).
Proof.
  split; [|split].
  - apply (marker_precedence (sample_world ntr.NORMAL false false false)
             ["It's looking good!"] 10 "w1" start
             {| ntr.sta := ntr.NORMAL; ntr.msg := "done";
                ntr.elapsedtime := 0.5%float |}
             [("w1-out", [LOOKING_GOOD])] [LOOKING_GOOD]);
      try reflexivity.
    + split; reflexivity.
    + simpl. left. reflexivity.
    + simpl. intros [H | []]. discriminate H.
  - apply (marker_precedence (sample_world ntr.NORMAL false false false)
             ["jsfunfuzz stopping due to above error!"] 10 "w1" start
             {| ntr.sta := ntr.NORMAL; ntr.msg := "done";
                ntr.elapsedtime := 0.5%float |}
             [("w1-out", [STOPPING])] [STOPPING]);
      try reflexivity.
    + split; reflexivity.
    + simpl. left. reflexivity.
    + simpl. intros [H | []]. discriminate H.
  - apply (marker_precedence (sample_world ntr.NORMAL false false false)
             ["js> 1+1"] 10 "w1" start
             {| ntr.sta := ntr.NORMAL; ntr.msg := "done";
                ntr.elapsedtime := 0.5%float |}
             [("w1-out", [("js> 1+1" ++ nl)%string])]
             [("js> 1+1" ++ nl)%string]);
      try reflexivity.
    + split; reflexivity.
    + simpl. intros [H | []]. discriminate H.
    + simpl. intros [H | []]. discriminate H.
Defined.

(** The three cases on one-line and empty logs. *)
Example only_good_line :
  level (sample_world ntr.NORMAL false false false)
    ["It's looking good!"] 10 "w1" start
  = Ok (JS_FINE,
        {| world := [("w1-out", [LOOKING_GOOD])];
           stdout := [ {| sum_logPrefix := "w1"; sum_amissStr := None;
                          sum_msg := "done";
                          sum_elapsedtime := 0.5%float |} ] |}).
Proof. reflexivity. Qed.

Example only_stopping_line :
  level_issues (sample_world ntr.NORMAL false false false)
    {| ntr.sta := ntr.NORMAL; ntr.msg := "done";
       ntr.elapsedtime := 0.5%float |} "w1" [STOPPING] []
  = (JS_DECIDED_TO_EXIT, ["jsfunfuzz decided to exit"]).
Proof. reflexivity. Qed.

Example no_marker_line :
  level_issues (sample_world ntr.NORMAL false false false)
    {| ntr.sta := ntr.NORMAL; ntr.msg := "done";
       ntr.elapsedtime := 0.5%float |} "w1" ["js> 1+1"] []
  = (JS_DID_NOT_FINISH, ["jsfunfuzz didn't finish"]).
Proof. reflexivity. Qed.

(** C6: a run with status TIMED_OUT whose log has the success marker, with
    silent detectors, is classified as the larger of the scan's level and
    JS_TIMED_OUT, hence at least JS_TIMED_OUT; when no self-terminated
    marker is in the log either, the scan says JS_FINE and the result is
    JS_TIMED_OUT itself. *)
Theorem timed_out_floor {W} (E : Externals W)
  runthis timeout logPrefix s runinfo w lines :
  run_gives E runthis timeout logPrefix s runinfo w lines ->
  ntr.sta runinfo = ntr.TIMED_OUT ->
  In LOOKING_GOOD lines ->
  detect_assertions_amiss E logPrefix true w = false ->
  detect_malloc_errors_amiss E logPrefix w = false ->
  exists lev s',
    level E runthis timeout logPrefix s = Ok (lev, s') /\
    lev = Z.max (fst (scan_log lines)) JS_TIMED_OUT /\
    JS_TIMED_OUT <= lev /\
    (~ In STOPPING lines ->
     lev = JS_TIMED_OUT /\
     s' = after_run s w runinfo logPrefix ["timed out"]).
Proof.
  intros Hrun Hsta Hgood Hassert Hmalloc.
  assert (Hcore : level_issues E runinfo logPrefix lines w
                  = (Z.max (fst (scan_log lines)) JS_TIMED_OUT,
                     snd (scan_log lines) ++ ["timed out"])).
  { decide_chain. rewrite Hsta, Hassert, Hmalloc. reflexivity. }
  eexists _, _. split; [apply (level_runs E _ _ _ _ _ _ _ Hrun)|].
  rewrite Hcore. cbn [fst snd]. split; [reflexivity|]. split; [lia|].
  intros Hstop. rewrite (scan_only_good lines Hgood Hstop).
  split; reflexivity.
Qed.

Lemma timed_out_floor_witness :
  exists lev s',
    level (sample_world ntr.TIMED_OUT false false false)
      ["It's looking good!"] 10 "w1" start = Ok (lev, s') /\
    lev = Z.max (fst (scan_log [LOOKING_GOOD])) JS_TIMED_OUT /\
    JS_TIMED_OUT <= lev /\
    lev = JS_TIMED_OUT /\
    s' = after_run start [("w1-out", [LOOKING_GOOD])]
           {| ntr.sta := ntr.TIMED_OUT; ntr.msg := "done";
              ntr.elapsedtime := 0.5%float |} "w1" ["timed out"].
Proof.
  destruct (timed_out_floor (sample_world ntr.TIMED_OUT false false false)
              ["It's looking good!"] 10 "w1" start
              {| ntr.sta := ntr.TIMED_OUT; ntr.msg := "done";
                 ntr.elapsedtime := 0.5%float |}
              [("w1-out", [LOOKING_GOOD])] [LOOKING_GOOD])
    as (lev & s' & Hlevel & Hmax & Hfloor & Hfine).
  - split; reflexivity.
  - reflexivity.
  - simpl. left. reflexivity.
  - reflexivity.
  - reflexivity.
  - assert (Hnone : ~ In STOPPING [LOOKING_GOOD]).
    { simpl. intros [H | []]. discriminate H. }
    destruct (Hfine Hnone) as [Hlev Hstate].
    exists lev, s'. auto.
Defined.

(** [interesting] step by step: it reads [args[0]] and [args[1]] as
    integers, then runs [level] on [args[3:]]. *)
Lemma interesting_unfold {W} (E : Externals W) args tempPrefix s :
  interesting E args tempPrefix s
  = match nth_error args 0 with
    | None => Raise IndexError
    | Some a0 =>
        match int E a0 with
        | None => Raise ValueError
        | Some minimumInterestingLevel =>
            match nth_error args 1 with
            | None => Raise IndexError
            | Some a1 =>
                match int E a1 with
                | None => Raise ValueError
                | Some timeout =>
                    match level E (skipn 3 args) timeout tempPrefix s with
                    | Ok (actualLevel, s') =>
                        Ok (actualLevel >=? minimumInterestingLevel, s')
                    | Raise e => Raise e
                    end
                end
            end
        end
    end.
Proof.
  unfold interesting, bind, getitem, to_int, ret, raise.
  destruct (nth_error args 0) as [a0|]; [|reflexivity].
  destruct (int E a0) as [m|]; [|reflexivity].
  destruct (nth_error args 1) as [a1|]; [|reflexivity].
  destruct (int E a1) as [t|]; reflexivity.
Qed.

(** C7: when the first two arguments read as integers and the run of
    [args[3:]] is classified at some level, [interesting] returns whether
    that level is at least the first argument: true exactly when it is. *)
Theorem interesting_iff_level_ge {W} (E : Externals W)
  args tempPrefix s a0 a1 minimumInterestingLevel timeout actualLevel s' :
  nth_error args 0 = Some a0 ->
  int E a0 = Some minimumInterestingLevel ->
  nth_error args 1 = Some a1 ->
  int E a1 = Some timeout ->
  level E (skipn 3 args) timeout tempPrefix s = Ok (actualLevel, s') ->
  exists b,
    interesting E args tempPrefix s = Ok (b, s') /\
    (b = true <-> minimumInterestingLevel <= actualLevel).
Proof.
  intros H0 Hm H1 Ht Hlev.
  exists (actualLevel >=? minimumInterestingLevel). split.
  - rewrite interesting_unfold, H0, Hm, H1, Ht, Hlev. reflexivity.
  - rewrite Z.geb_le. reflexivity.
Qed.

Lemma interesting_iff_level_ge_witness :
  exists b,
    interesting (sample_world ntr.NORMAL false false true)
      ["5"; "10"; "known"; "It's looking good!"] "w1" start
    = Ok (b, after_run start [("w1-out", [LOOKING_GOOD])]
               {| ntr.sta := ntr.NORMAL; ntr.msg := "done";
                  ntr.elapsedtime := 0.5%float |} "w1" ["malloc error"]) /\
    (b = true <-> 5 <= 5).
Proof.
  apply (interesting_iff_level_ge
           (sample_world ntr.NORMAL false false true)
           ["5"; "10"; "known"; "It's looking good!"] "w1" start
           "5" "10" 5 10 5).
  - reflexivity.
  - reflexivity.
  - reflexivity.
  - reflexivity.
  - reflexivity.
Defined.

(** Below the threshold the answer is false, at it the answer is true. *)
Example interesting_fine_run :
  interesting (sample_world ntr.NORMAL false false false)
    ["5"; "10"; "known"; "It's looking good!"] "w1" start
  = Ok (false, after_run start [("w1-out", [LOOKING_GOOD])]
                 {| ntr.sta := ntr.NORMAL; ntr.msg := "done";
                    ntr.elapsedtime := 0.5%float |} "w1" []).
Proof. reflexivity. Qed.

(** [init] is the only reader of [args[2]]. *)
Lemma init_reads_knownPath {W} (E : Externals W) args s :
  init E args s
  = match nth_error args 2 with
    | Some knownPath => initWithKnownPath E knownPath s
    | None => Raise IndexError
    end.
Proof.
  unfold init, bind, getitem, ret, raise.
  destruct (nth_error args 2); reflexivity.
Qed.

(** C10: two argument lists that agree at index 0, at index 1 and from
    index 3 on give the same outcome of [interesting] from the same state:
    the same answer or exception, and the same state afterwards. *)
Theorem interesting_ignores_knownPath {W} (E : Externals W)
  args args' tempPrefix s :
  nth_error args 0 = nth_error args' 0 ->
  nth_error args 1 = nth_error args' 1 ->
  skipn 3 args = skipn 3 args' ->
  interesting E args tempPrefix s = interesting E args' tempPrefix s.
Proof.
  intros H0 H1 H3. rewrite !interesting_unfold, H0, H1, H3. reflexivity.
Qed.

Lemma interesting_ignores_knownPath_witness :
  interesting (sample_world ntr.NORMAL false false true)
    ["5"; "10"; "known-a"; "It's looking good!"] "w1" start
  = interesting (sample_world ntr.NORMAL false false true)
      ["5"; "10"; "known-b"; "It's looking good!"] "w1" start.
Proof.
  apply (interesting_ignores_knownPath
           (sample_world ntr.NORMAL false false true)
           ["5"; "10"; "known-a"; "It's looking good!"]
           ["5"; "10"; "known-b"; "It's looking good!"] "w1" start).
  - reflexivity.
  - reflexivity.
  - reflexivity.
Defined.

(** * Properties of the shell inspection *)

Import inspectShell.

(** [split_1] cuts at the first separator and nowhere else. *)
Lemma split_1_first (sep : ascii) (name rest : string) :
  forallb (fun c => negb (Ascii.eqb c sep)) (list_ascii_of_string name) = true ->
  split_1 sep (name ++ String sep rest)%string = [name; rest].
Proof.
  induction name as [|c name IH]; simpl; intros H.
  - now rewrite Ascii.eqb_refl.
  - apply andb_true_iff in H. destruct H as [Hc Hname].
    apply negb_true_iff in Hc. rewrite Hc, (IH Hname). reflexivity.
Qed.

(** The exit code is all [shellSupports] looks at. *)
Lemma shellSupports_unfold {Env} (P : Subprocesses Env) shellPath args :
  shellSupports P shellPath args
  = match testBinary P shellPath args false with
    | Ok (output, retCode) =>
        if retCode =? 0 then Ok true
        else if (1 <=? retCode) && (retCode <=? 3) then Ok false
        else Raise (Exception
               ("Unexpected exit code in shellSupports " ++ str retCode)%string)
    | Raise e => Raise e
    end.
Proof.
  unfold shellSupports, and_then.
  destruct (testBinary P shellPath args false) as [[output retCode]|e];
    reflexivity.
Qed.

(** C8: when the probe exits with code 0 [shellSupports] returns True, with
    a code from 1 to 3 it returns False, and with any other code it raises
    an exception naming the code. *)
Theorem shellSupports_by_exit_code {Env} (P : Subprocesses Env)
  shellPath args output retCode :
  testBinary P shellPath args false = Ok (output, retCode) ->
  (retCode = 0 -> shellSupports P shellPath args = Ok true) /\
  (1 <= retCode <= 3 -> shellSupports P shellPath args = Ok false) /\
  (retCode < 0 \/ 3 < retCode ->
   shellSupports P shellPath args
   = Raise (Exception
       ("Unexpected exit code in shellSupports " ++ str retCode)%string)).
Proof.
  intros Htest. rewrite shellSupports_unfold, Htest.
  split; [|split]; intros H.
  - subst retCode. reflexivity.
  - destruct (Z.eqb_spec retCode 0) as [Heq|_]; [lia|].
    destruct (Z.leb_spec 1 retCode); [|lia].
    destruct (Z.leb_spec retCode 3); [|lia].
    reflexivity.
  - destruct (Z.eqb_spec retCode 0) as [Heq|_]; [lia|].
    destruct (Z.leb_spec 1 retCode); destruct (Z.leb_spec retCode 3);
      cbn [andb]; try reflexivity; lia.
Qed.

Lemma shellSupports_by_exit_code_witness :
  shellSupports (sample_shell "42" 0) "js" ["-e"; "42"] = Ok true /\
  shellSupports (sample_shell "error" 3) "js" ["-e"; "foo()"] = Ok false /\
  shellSupports (sample_shell "usage" 4) "js" ["-e"; "42"]
  = Raise (Exception
      ("Unexpected exit code in shellSupports " ++ str 4)%string).
Proof.
  split; [|split].
  - apply (shellSupports_by_exit_code (sample_shell "42" 0) "js"
             ["-e"; "42"] "42" 0); reflexivity.
  - apply (shellSupports_by_exit_code (sample_shell "error" 3) "js"
             ["-e"; "foo()"] "error" 3); [reflexivity|lia].
  - apply (shellSupports_by_exit_code (sample_shell "usage" 4) "js"
             ["-e"; "42"] "usage" 4); [reflexivity|right; lia].
Defined.

(** The three classes of exit code on concrete probes; a negative code, as
    for a shell killed by a signal, raises too. *)
Example shellSupports_exit_0 :
  shellSupports (sample_shell "42" 0) "js" ["-e"; "42"] = Ok true.
Proof. reflexivity. Qed.

Example shellSupports_exit_3 :
  shellSupports (sample_shell "error" 3) "js" ["-e"; "foo()"] = Ok false.
Proof. reflexivity. Qed.

Example shellSupports_exit_4 :
  shellSupports (sample_shell "usage" 4) "js" ["-e"; "42"]
  = Raise (Exception "Unexpected exit code in shellSupports 4").
Proof. reflexivity. Qed.

Example shellSupports_exit_signal :
  shellSupports (sample_shell "boom" (-11)) "js" ["-e"; "42"]
  = Raise (Exception "Unexpected exit code in shellSupports -11").
Proof. reflexivity. Qed.

(** C9: off Windows, when the description after the first colon of the
    [file] output is not a universal binary and holds none of "32-bit",
    "i386" and "64-bit", [archOfBinary] returns None: it neither answers
    "32" or "64" nor raises. *)
Theorem archOfBinary_unrecognised {Env} (P : Subprocesses Env)
  binary unsplitFiletype code filetype :
  isWin P = false ->
  captureStdout P ["file"; binary] no_kwargs = Ok (unsplitFiletype, code) ->
  nth_error (split_1 ":" unsplitFiletype) 1 = Some filetype ->
  contains "universal binary" filetype = false ->
  contains "32-bit" filetype = false ->
  contains "i386" filetype = false ->
  contains "64-bit" filetype = false ->
  archOfBinary P binary = Ok None.
Proof.
  intros Hwin Hfile Hsplit Huni H32 H386 H64.
  unfold archOfBinary, and_then. rewrite Hfile. cbn [fst].
  rewrite Hsplit, Hwin, Huni, H32, H386, H64. reflexivity.
Qed.

Lemma archOfBinary_unrecognised_witness :
  archOfBinary (sample_shell "js: ASCII text" 0) "js" = Ok None.
Proof.
  apply (archOfBinary_unrecognised (sample_shell "js: ASCII text" 0)
           "js" "js: ASCII text" 0 " ASCII text").
  - reflexivity.
  - reflexivity.
  - reflexivity.
  - reflexivity.
  - reflexivity.
  - reflexivity.
  - reflexivity.
Defined.

(** The other ways out of [archOfBinary], on concrete [file] outputs. *)
Example archOfBinary_64 :
  archOfBinary (sample_shell "js: ELF 64-bit LSB executable, x86-64" 0) "js"
  = Ok (Some "64").
Proof. reflexivity. Qed.

Example archOfBinary_32 :
  archOfBinary (sample_shell "js: ELF 32-bit LSB executable, Intel 80386" 0) "js"
  = Ok (Some "32").
Proof. reflexivity. Qed.

Example archOfBinary_universal :
  archOfBinary
    (sample_shell "js: Mach-O universal binary with 2 architectures" 0) "js"
  = Raise (Exception
      "I don't know how to deal with multiple-architecture binaries").
Proof. reflexivity. Qed.

Example archOfBinary_no_colon :
  archOfBinary (sample_shell "cannot open" 0) "js" = Raise IndexError.
Proof. reflexivity. Qed.

(** * Further properties of the classifier *)

(** Replace the level names by their numbers. *)
Ltac by_numbers :=
  unfold status_floor, JS_FINE, JS_TIMED_OUT, JS_ABNORMAL_EXIT,
    JS_DID_NOT_FINISH, JS_DECIDED_TO_EXIT, JS_MALLOC_ERROR,
    JS_NEW_ASSERT_OR_CRASH in *.

Section MoreScanFacts.

Lemma no_marker_forallb (lines : list string) :
  existsb is_marker lines = false ->
  forallb (fun l => negb (is_marker l)) lines = true.
Proof.
  induction lines as [|l lines IH]; simpl; intros H; [reflexivity|].
  apply orb_false_iff in H. destruct H as [-> Hrest].
  simpl. now apply IH.
Qed.

(** The scan from any start, over a log with a marker, does not depend on
    the start. *)
Lemma scan_forgets_start (lines : list string) (acc acc' : Z * list string) :
  existsb is_marker lines = true ->
  fold_left scan_line lines acc = fold_left scan_line lines acc'.
Proof.
  intros H.
  destruct (last_marker_split lines H) as (before & m & after & -> & Hm & Ha).
  rewrite !(scan_split _ _ _ _ Ha). now apply scan_line_marker.
Qed.

End MoreScanFacts.

(** X1: scanning two logs one after the other gives the scan of the second
    when the second has a marker line, and the scan of the first when it
    has none: lines before the last marker never matter. *)
Theorem scan_log_app (first second : list string) :
  scan_log (first ++ second)
  = if existsb is_marker second then scan_log second else scan_log first.
Proof.
  unfold scan_log. rewrite fold_left_app.
  destruct (existsb is_marker second) eqn:Hsecond.
  - now apply scan_forgets_start.
  - apply scan_marker_free. now apply no_marker_forallb.
Qed.

(** X2: the scan says JS_FINE with no issue exactly when the last marker
    line of the log is the success line. *)
Theorem scan_fine_iff (lines : list string) :
  scan_log lines = (JS_FINE, []) <->
  exists before after,
    lines = before ++ LOOKING_GOOD :: after /\
    forallb (fun l => negb (is_marker l)) after = true.
Proof.
  split.
  - intros Hfine. destruct (existsb is_marker lines) eqn:Hany.
    + destruct (last_marker_split lines Hany)
        as (before & m & after & -> & Hm & Hafter).
      unfold scan_log in Hfine. rewrite (scan_split _ _ _ _ Hafter) in Hfine.
      unfold scan_line in Hfine.
      destruct (String.eqb m LOOKING_GOOD) eqn:Hgood.
      * apply String.eqb_eq in Hgood. subst m. now exists before, after.
      * destruct (String.eqb m STOPPING) eqn:Hstop.
        -- discriminate Hfine.
        -- unfold is_marker in Hm. rewrite Hgood, Hstop in Hm.
           discriminate Hm.
    + unfold scan_log in Hfine.
      rewrite (scan_marker_free _ _ (no_marker_forallb _ Hany)) in Hfine.
      discriminate Hfine.
  - intros (before & after & -> & Hafter).
    unfold scan_log. rewrite (scan_split _ _ _ _ Hafter). reflexivity.
Qed.

Section MoreLevelFacts.

Context {W : Type}.
Variable E : Externals W.

(** Whenever [level] returns, the run completed and the log was read. *)
Lemma level_inv runthis timeout logPrefix s lev s' :
  level E runthis timeout logPrefix s = Ok (lev, s') ->
  exists runinfo w lines,
    run_gives E runthis timeout logPrefix s runinfo w lines /\
    lev = fst (level_issues E runinfo logPrefix lines w) /\
    s' = after_run s w runinfo logPrefix
           (snd (level_issues E runinfo logPrefix lines w)).
Proof.
  intros H.
  destruct (timed_run E runthis timeout logPrefix (world s))
    as [[runinfo w]|e] eqn:Hrun.
  - destruct (open_lines E (logPrefix ++ "-out")%string w) as [lines|] eqn:Hlog.
    + exists runinfo, w, lines.
      assert (Hgives : run_gives E runthis timeout logPrefix s runinfo w lines)
        by (split; assumption).
      rewrite (level_runs E _ _ _ _ _ _ _ Hgives) in H.
      inversion H. auto.
    + rewrite (proj2 (level_raises E runthis timeout logPrefix s)
                 runinfo w Hrun Hlog) in H.
      discriminate H.
  - rewrite (proj1 (level_raises E runthis timeout logPrefix s) e Hrun) in H.
    discriminate H.
Qed.

(** The level in closed form. *)
Lemma level_issues_closed runinfo logPrefix lines w :
  fst (level_issues E runinfo logPrefix lines w)
  = if detect_assertions_amiss E logPrefix true w
       || (ntr.status_eqb (ntr.sta runinfo) ntr.CRASHED
           && detect_interesting_crashes_amiss E logPrefix true
                (ntr.msg runinfo) w)
    then JS_NEW_ASSERT_OR_CRASH
    else if detect_malloc_errors_amiss E logPrefix w then JS_MALLOC_ERROR
    else Z.max (fst (scan_log lines)) (status_floor (ntr.sta runinfo)).
Proof.
  unfold level_issues, note.
  destruct (scan_log_cases lines) as [-> | [-> | ->]];
    destruct (detect_assertions_amiss E logPrefix true w);
    destruct (detect_interesting_crashes_amiss E logPrefix true
                (ntr.msg runinfo) w);
    destruct (detect_malloc_errors_amiss E logPrefix w);
    destruct (ntr.sta runinfo); reflexivity.
Qed.

Lemma scan_level_cases lines :
  fst (scan_log lines) = JS_DID_NOT_FINISH \/
  fst (scan_log lines) = JS_FINE \/
  fst (scan_log lines) = JS_DECIDED_TO_EXIT.
Proof.
  destruct (scan_log_cases lines) as [-> | [-> | ->]]; auto.
Qed.

Lemma level_issues_range runinfo logPrefix lines w :
  JS_FINE <= fst (level_issues E runinfo logPrefix lines w)
          <= JS_NEW_ASSERT_OR_CRASH.
Proof.
  rewrite level_issues_closed.
  destruct (_ || _); [by_numbers; lia|].
  destruct (detect_malloc_errors_amiss E logPrefix w); [by_numbers; lia|].
  destruct (scan_level_cases lines) as [-> | [-> | ->]];
    destruct (ntr.sta runinfo); by_numbers; lia.
Qed.

(** The printed issue part is missing exactly at level JS_FINE. *)
Lemma amissStr_none_iff runinfo logPrefix lines w :
  sum_amissStr
    (summary_of runinfo logPrefix
       (snd (level_issues E runinfo logPrefix lines w))) = None <->
  fst (level_issues E runinfo logPrefix lines w) = JS_FINE.
Proof.
  unfold level_issues, note, summary_of.
  destruct (scan_log_cases lines) as [-> | [-> | ->]];
    destruct (detect_assertions_amiss E logPrefix true w);
    destruct (detect_interesting_crashes_amiss E logPrefix true
                (ntr.msg runinfo) w);
    destruct (detect_malloc_errors_amiss E logPrefix w);
    destruct (ntr.sta runinfo);
    cbn; split; intros H; try reflexivity; discriminate H.
Qed.

Lemma note_extends cond text floor acc (base : list string) :
  (exists more, snd acc = base ++ more) ->
  exists more, snd (note cond text floor acc) = base ++ more.
Proof.
  intros [more Hmore]. unfold note. destruct cond; cbn [snd].
  - exists (more ++ [text]). now rewrite Hmore, app_assoc.
  - now exists more.
Qed.

End MoreLevelFacts.

(** X3: the level [level] returns, as a decision table: an unknown
    assertion, or an unknown crash of a crashed run, gives
    JS_NEW_ASSERT_OR_CRASH; otherwise a malloc error gives JS_MALLOC_ERROR;
    otherwise the level is the larger of the scan's level and the floor of
    the status. *)
Theorem level_decision_table {W} (E : Externals W)
  runthis timeout logPrefix s runinfo w lines :
  run_gives E runthis timeout logPrefix s runinfo w lines ->
  exists s',
    level E runthis timeout logPrefix s
    = Ok (if detect_assertions_amiss E logPrefix true w
             || (ntr.status_eqb (ntr.sta runinfo) ntr.CRASHED
                 && detect_interesting_crashes_amiss E logPrefix true
                      (ntr.msg runinfo) w)
          then JS_NEW_ASSERT_OR_CRASH
          else if detect_malloc_errors_amiss E logPrefix w
               then JS_MALLOC_ERROR
               else Z.max (fst (scan_log lines))
                      (status_floor (ntr.sta runinfo)),
          s').
Proof.
  intros Hrun. eexists.
  rewrite (level_runs E _ _ _ _ _ _ _ Hrun), level_issues_closed.
  reflexivity.
Qed.

Lemma level_decision_table_witness :
  exists s',
    level (sample_world ntr.ABNORMAL false true false)
      ["jsfunfuzz stopping due to above error!"] 10 "w1" start
    = Ok (if false || (ntr.status_eqb ntr.ABNORMAL ntr.CRASHED && true)
          then JS_NEW_ASSERT_OR_CRASH
          else if false then JS_MALLOC_ERROR
               else Z.max (fst (scan_log [STOPPING]))
                      (status_floor ntr.ABNORMAL),
          s').
Proof.
  apply (level_decision_table (sample_world ntr.ABNORMAL false true false)
           ["jsfunfuzz stopping due to above error!"] 10 "w1" start
           {| ntr.sta := ntr.ABNORMAL; ntr.msg := "done";
              ntr.elapsedtime := 0.5%float |}
           [("w1-out", [STOPPING])] [STOPPING]).
  split; reflexivity.
Defined.

(** X4: every level that [level] returns lies between JS_FINE and
    JS_NEW_ASSERT_OR_CRASH. *)
Theorem level_in_range {W} (E : Externals W)
  runthis timeout logPrefix s lev s' :
  level E runthis timeout logPrefix s = Ok (lev, s') ->
  JS_FINE <= lev <= JS_NEW_ASSERT_OR_CRASH.
Proof.
  intros H.
  destruct (level_inv E _ _ _ _ _ _ H) as (runinfo & w & lines & _ & -> & _).
  apply level_issues_range.
Qed.

Lemma level_in_range_witness :
  JS_FINE <= JS_MALLOC_ERROR <= JS_NEW_ASSERT_OR_CRASH.
Proof.
  apply (level_in_range (sample_world ntr.NORMAL false false true)
           ["It's looking good!"] 10 "w1" start JS_MALLOC_ERROR
           (after_run start [("w1-out", [LOOKING_GOOD])]
              {| ntr.sta := ntr.NORMAL; ntr.msg := "done";
                 ntr.elapsedtime := 0.5%float |} "w1" ["malloc error"])).
  reflexivity.
Defined.

(** X5: the level is JS_NEW_ASSERT_OR_CRASH exactly when the assertion
    detector fires, or the run crashed and the crash detector fires. *)
Theorem new_assert_or_crash_iff {W} (E : Externals W)
  runinfo logPrefix lines w :
  fst (level_issues E runinfo logPrefix lines w) = JS_NEW_ASSERT_OR_CRASH <->
  detect_assertions_amiss E logPrefix true w = true \/
  (ntr.sta runinfo = ntr.CRASHED /\
   detect_interesting_crashes_amiss E logPrefix true (ntr.msg runinfo) w
   = true).
Proof.
  rewrite level_issues_closed.
  destruct (scan_level_cases lines) as [-> | [-> | ->]];
    destruct (detect_assertions_amiss E logPrefix true w);
    destruct (detect_interesting_crashes_amiss E logPrefix true
                (ntr.msg runinfo) w);
    destruct (detect_malloc_errors_amiss E logPrefix w);
    destruct (ntr.sta runinfo);
    cbn; split; intros H; auto;
    try discriminate H;
    try (destruct H as [H | [H1 H2]]; discriminate).
Qed.

(** X6: the two lowest levels above JS_FINE need a log whose scan says
    JS_FINE.  The level is JS_TIMED_OUT exactly when the scan says JS_FINE,
    the run timed out and neither the assertion nor the malloc detector
    fires; it is JS_ABNORMAL_EXIT exactly when the same holds with an
    abnormal exit in place of the time-out. *)
Theorem low_levels_iff {W} (E : Externals W) runinfo logPrefix lines w :
  (fst (level_issues E runinfo logPrefix lines w) = JS_TIMED_OUT <->
   scan_log lines = (JS_FINE, []) /\
   ntr.sta runinfo = ntr.TIMED_OUT /\
   detect_assertions_amiss E logPrefix true w = false /\
   detect_malloc_errors_amiss E logPrefix w = false) /\
  (fst (level_issues E runinfo logPrefix lines w) = JS_ABNORMAL_EXIT <->
   scan_log lines = (JS_FINE, []) /\
   ntr.sta runinfo = ntr.ABNORMAL /\
   detect_assertions_amiss E logPrefix true w = false /\
   detect_malloc_errors_amiss E logPrefix w = false).
Proof.
  rewrite level_issues_closed.
  destruct (scan_log_cases lines) as [-> | [-> | ->]];
    destruct (detect_assertions_amiss E logPrefix true w);
    destruct (detect_interesting_crashes_amiss E logPrefix true
                (ntr.msg runinfo) w);
    destruct (detect_malloc_errors_amiss E logPrefix w);
    destruct (ntr.sta runinfo);
    cbn; (split; split; intros H; auto;
          try discriminate H;
          try (destruct H as (H1 & H2 & H3 & H4); discriminate)).
Qed.

(** X7: the detectors and the status only add to what the scan found: the
    level is never below the scan's level, and the issue list starts with
    the scan's issues. *)
Theorem level_never_below_scan {W} (E : Externals W)
  runinfo logPrefix lines w :
  fst (scan_log lines) <= fst (level_issues E runinfo logPrefix lines w) /\
  exists more,
    snd (level_issues E runinfo logPrefix lines w)
    = snd (scan_log lines) ++ more.
Proof.
  split.
  - unfold level_issues.
    repeat (eapply Z.le_trans; [|apply note_raises]). apply Z.le_refl.
  - unfold level_issues. repeat apply note_extends.
    exists []. now rewrite app_nil_r.
Qed.

(** X8: unless the run crashed, the crash detector has no say: exchanging
    it for any other leaves the outcome of [level] as it was. *)
Theorem crash_detector_needs_crash {W} (E : Externals W)
  (f : string -> bool -> string -> W -> bool)
  runthis timeout logPrefix s runinfo w lines :
  run_gives E runthis timeout logPrefix s runinfo w lines ->
  ntr.sta runinfo <> ntr.CRASHED ->
  level (with_crashes E f) runthis timeout logPrefix s
  = level E runthis timeout logPrefix s.
Proof.
  intros Hrun Hsta.
  assert (Hrun' : run_gives (with_crashes E f) runthis timeout logPrefix s
                    runinfo w lines) by exact Hrun.
  rewrite (level_runs E _ _ _ _ _ _ _ Hrun).
  rewrite (level_runs (with_crashes E f) _ _ _ _ _ _ _ Hrun').
  assert (Hsame : level_issues (with_crashes E f) runinfo logPrefix lines w
                  = level_issues E runinfo logPrefix lines w).
  { decide_chain.
    destruct (ntr.sta runinfo); try reflexivity. now elim Hsta. }
  now rewrite Hsame.
Qed.

Lemma crash_detector_needs_crash_witness :
  level (with_crashes (sample_world ntr.TIMED_OUT false false false)
           (fun _ _ _ _ => true))
    ["It's looking good!"] 10 "w1" start
  = level (sample_world ntr.TIMED_OUT false false false)
      ["It's looking good!"] 10 "w1" start.
Proof.
  apply (crash_detector_needs_crash
           (sample_world ntr.TIMED_OUT false false false)
           (fun _ _ _ _ => true)
           ["It's looking good!"] 10 "w1" start
           {| ntr.sta := ntr.TIMED_OUT; ntr.msg := "done";
              ntr.elapsedtime := 0.5%float |}
           [("w1-out", [LOOKING_GOOD])] [LOOKING_GOOD]).
  - split; reflexivity.
  - discriminate.
Defined.

(** X9: no issue is listed twice, and there are at most four: one from the
    scan, one for an assertion, one for a malloc error, and one for the
    status, since a crash, an abnormal exit and a time-out exclude each
    other. *)
Theorem issues_distinct_at_most_four {W} (E : Externals W)
  runinfo logPrefix lines w :
  NoDup (snd (level_issues E runinfo logPrefix lines w)) /\
  (List.length (snd (level_issues E runinfo logPrefix lines w)) <= 4)%nat.
Proof.
  unfold level_issues, note.
  destruct (scan_log_cases lines) as [-> | [-> | ->]];
    destruct (detect_assertions_amiss E logPrefix true w);
    destruct (detect_interesting_crashes_amiss E logPrefix true
                (ntr.msg runinfo) w);
    destruct (detect_malloc_errors_amiss E logPrefix w);
    destruct (ntr.sta runinfo);
    cbn; (split; [|lia]);
    repeat (constructor; [cbn; intuition discriminate|]); constructor.
Qed.

(** X10: a call of [level] that returns has printed exactly one line, after
    what was printed before; the line carries the log prefix, and its issue
    part is missing exactly when the level returned is JS_FINE. *)
Theorem level_prints_one_line {W} (E : Externals W)
  runthis timeout logPrefix s lev s' :
  level E runthis timeout logPrefix s = Ok (lev, s') ->
  exists line,
    stdout s' = stdout s ++ [line] /\
    sum_logPrefix line = logPrefix /\
    (sum_amissStr line = None <-> lev = JS_FINE).
Proof.
  intros H.
  destruct (level_inv E _ _ _ _ _ _ H)
    as (runinfo & w & lines & _ & -> & ->).
  eexists. split; [reflexivity|]. split; [reflexivity|].
  apply amissStr_none_iff.
Qed.

Lemma level_prints_one_line_witness :
  exists line,
    stdout (after_run start [("w1-out", [LOOKING_GOOD])]
              {| ntr.sta := ntr.TIMED_OUT; ntr.msg := "done";
                 ntr.elapsedtime := 0.5%float |} "w1" ["timed out"])
    = stdout start ++ [line] /\
    sum_logPrefix line = "w1" /\
    (sum_amissStr line = None <-> JS_TIMED_OUT = JS_FINE).
Proof.
  apply (level_prints_one_line
           (sample_world ntr.TIMED_OUT false false false)
           ["It's looking good!"] 10 "w1" start JS_TIMED_OUT).
  reflexivity.
Defined.


(** The two failures on concrete worlds. *)
Example level_unspawnable :
  level unspawnable_world ["js"] 10 "w1" start
  = Raise (Exception "cannot start the command").
Proof. reflexivity. Qed.

Example level_unreadable :
  level unreadable_world ["js"] 10 "w1" start = Raise IOError.
Proof. reflexivity. Qed.



(** X13: lowering the threshold keeps an interesting run interesting: if
    [interesting] answers True for a threshold, it answers True, with the
    same final state, for every smaller threshold and the same remaining
    arguments. *)
Theorem interesting_threshold_antitone {W} (E : Externals W)
  a0 a0' rest tempPrefix s m m' s' :
  int E a0 = Some m ->
  int E a0' = Some m' ->
  m' <= m ->
  interesting E (a0 :: rest) tempPrefix s = Ok (true, s') ->
  interesting E (a0' :: rest) tempPrefix s = Ok (true, s').
Proof.
  intros Hm Hm' Hle H.
  rewrite interesting_unfold in H. rewrite interesting_unfold.
  change (nth_error (a0 :: rest) 0) with (Some a0) in H.
  change (nth_error (a0' :: rest) 0) with (Some a0').
  change (nth_error (a0' :: rest) 1) with (nth_error (a0 :: rest) 1).
  change (skipn 3 (a0' :: rest)) with (skipn 3 (a0 :: rest)).
  cbv beta iota in H |- *. rewrite Hm in H. rewrite Hm'.
  destruct (nth_error (a0 :: rest) 1) as [a1|]; [|discriminate H].
  destruct (int E a1) as [t|]; [|discriminate H].
  destruct (level E (skipn 3 (a0 :: rest)) t tempPrefix s) as [[lev s1]|e];
    [|discriminate H].
  inversion H as [[Hge Hs]]. rewrite Hge.
  apply Z.geb_le in Hge.
  assert (Hge' : (lev >=? m') = true) by (apply Z.geb_le; lia).
  now rewrite Hge'.
Qed.

Lemma interesting_threshold_antitone_witness :
  interesting (sample_world ntr.NORMAL false false true)
    ["3"; "10"; "known"; "It's looking good!"] "w1" start
  = Ok (true, after_run start [("w1-out", [LOOKING_GOOD])]
                {| ntr.sta := ntr.NORMAL; ntr.msg := "done";
                   ntr.elapsedtime := 0.5%float |} "w1" ["malloc error"]).
Proof.
  apply (interesting_threshold_antitone
           (sample_world ntr.NORMAL false false true)
           "5" "3" ["10"; "known"; "It's looking good!"] "w1" start 5 3).
  - reflexivity.
  - reflexivity.
  - lia.
  - reflexivity.
Defined.

(** X14: a threshold of JS_FINE or less makes every classified run
    interesting, and a threshold above JS_NEW_ASSERT_OR_CRASH makes none
    interesting. *)
Theorem interesting_threshold_extremes {W} (E : Externals W)
  args tempPrefix s a0 m b s' :
  nth_error args 0 = Some a0 ->
  int E a0 = Some m ->
  interesting E args tempPrefix s = Ok (b, s') ->
  (m <= JS_FINE -> b = true) /\
  (JS_NEW_ASSERT_OR_CRASH < m -> b = false).
Proof.
  intros H0 Hm H.
  rewrite interesting_unfold, H0, Hm in H.
  destruct (nth_error args 1) as [a1|]; [|discriminate H].
  destruct (int E a1) as [t|]; [|discriminate H].
  destruct (level E (skipn 3 args) t tempPrefix s) as [[lev s1]|e] eqn:Hlev;
    [|discriminate H].
  inversion H as [[Hb Hs]].
  destruct (level_inv E _ _ _ _ _ _ Hlev)
    as (runinfo & w & lines & _ & Hfst & _).
  pose proof (level_issues_range E runinfo tempPrefix lines w) as Hrange.
  rewrite <- Hfst in Hrange.
  split; intros Hm'.
  - apply Z.geb_le. lia.
  - destruct (lev >=? m) eqn:Hge; [|reflexivity].
    apply Z.geb_le in Hge. lia.
Qed.

Lemma interesting_threshold_extremes_witness :
  (0 <= JS_FINE /\ true = true) /\
  (JS_NEW_ASSERT_OR_CRASH < 7 /\ false = false).
Proof.
  split; split.
  - unfold JS_FINE. lia.
  - apply (interesting_threshold_extremes
             (sample_world ntr.NORMAL false false false)
             ["0"; "10"; "known"; "It's looking good!"] "w1" start "0" 0 true
             (after_run start [("w1-out", [LOOKING_GOOD])]
                {| ntr.sta := ntr.NORMAL; ntr.msg := "done";
                   ntr.elapsedtime := 0.5%float |} "w1" []));
      [reflexivity | reflexivity | reflexivity | unfold JS_FINE; lia].
  - unfold JS_NEW_ASSERT_OR_CRASH. lia.
  - apply (interesting_threshold_extremes
             (sample_world ntr.NORMAL true false false)
             ["7"; "10"; "known"; "It's looking good!"] "w1" start "7" 7 false
             (after_run start [("w1-out", [LOOKING_GOOD])]
                {| ntr.sta := ntr.NORMAL; ntr.msg := "done";
                   ntr.elapsedtime := 0.5%float |} "w1"
                ["unknown assertion"]));
      [reflexivity | reflexivity | reflexivity
      | unfold JS_NEW_ASSERT_OR_CRASH; lia].
Defined.

(** * Further properties of the shell inspection *)

Section StringFacts.

Lemma prefix_iff (needle hay : string) :
  prefix needle hay = true <-> exists post, hay = (needle ++ post)%string.
Proof.
  revert hay. induction needle as [|c needle IH]; intros hay.
  - split; [intros _; now exists hay | intros _; now destruct hay].
  - destruct hay as [|d hay]; simpl.
    + split; [discriminate | intros [post H]; discriminate H].
    + destruct (ascii_dec c d) as [->|Hcd].
      * rewrite IH. split; intros [post H]; exists post.
        -- now rewrite H.
        -- now inversion H.
      * split; [discriminate|].
        intros [post H]. congruence.
Qed.

Lemma contains_unfold (needle hay : string) :
  contains needle hay
  = if prefix needle hay then true
    else match hay with
         | EmptyString => false
         | String _ rest => contains needle rest
         end.
Proof. destruct hay; reflexivity. Qed.

Lemma split_1_no_sep (sep : ascii) (s : string) :
  forallb (fun c => negb (Ascii.eqb c sep)) (list_ascii_of_string s) = true ->
  split_1 sep s = [s].
Proof.
  induction s as [|c s IH]; simpl; intros H; [reflexivity|].
  apply andb_true_iff in H. destruct H as [Hc Hs].
  apply negb_true_iff in Hc. now rewrite Hc, (IH Hs).
Qed.

End StringFacts.

(** X15: the substring test used on the [file] and shell outputs is true
    exactly when the text is some prefix, then the needle, then some
    suffix. *)
Theorem contains_iff_substring (needle hay : string) :
  contains needle hay = true <->
  exists pre post, hay = (pre ++ needle ++ post)%string.
Proof.
  split.
  - induction hay as [|c hay IH]; rewrite contains_unfold;
      destruct (prefix needle _) eqn:Hp.
    + intros _. apply prefix_iff in Hp. destruct Hp as [post Hp].
      now exists EmptyString, post.
    + discriminate.
    + intros _. apply prefix_iff in Hp. destruct Hp as [post Hp].
      now exists EmptyString, post.
    + intros H. destruct (IH H) as (pre & post & ->).
      now exists (String c pre), post.
  - intros (pre & post & ->).
    induction pre as [|c pre IH]; rewrite contains_unfold.
    + assert (Hp : prefix needle (needle ++ post) = true)
        by (apply prefix_iff; now exists post).
      simpl. now rewrite Hp.
    + destruct (prefix needle _); [reflexivity|]. exact IH.
Qed.

(** X16: when what [file] prints has no colon in it, [archOfBinary] raises
    IndexError, on every platform. *)
Theorem archOfBinary_without_colon {Env} (P : Subprocesses Env)
  binary unsplitFiletype code :
  captureStdout P ["file"; binary] no_kwargs = Ok (unsplitFiletype, code) ->
  forallb (fun c => negb (Ascii.eqb c ":"))
    (list_ascii_of_string unsplitFiletype) = true ->
  archOfBinary P binary = Raise IndexError.
Proof.
  intros Hfile Hcolon. unfold archOfBinary, and_then.
  rewrite Hfile. cbn [fst]. now rewrite (split_1_no_sep _ _ Hcolon).
Qed.

Lemma archOfBinary_without_colon_witness :
  archOfBinary (sample_probe true false "cannot open" "42" 0) "js"
  = Raise IndexError.
Proof.
  apply (archOfBinary_without_colon
           (sample_probe true false "cannot open" "42" 0)
           "js" "cannot open" 0).
  - reflexivity.
  - reflexivity.
Defined.

(** What [archOfBinary] went through when it returns. *)
Lemma archOfBinary_inv {Env} (P : Subprocesses Env) binary arch :
  archOfBinary P binary = Ok arch ->
  exists unsplitFiletype code filetype,
    captureStdout P ["file"; binary] no_kwargs = Ok (unsplitFiletype, code) /\
    nth_error (split_1 ":" unsplitFiletype) 1 = Some filetype /\
    Ok arch
    = if isWin P then
        if negb (contains "PE executable for MS Windows (console)" filetype)
        then Raise AssertionError
        else Ok (Some (if contains "Intel 80386 32-bit" filetype
                       then "32" else "64"))
      else
        if contains "universal binary" filetype then
          Raise (Exception
            "I don't know how to deal with multiple-architecture binaries")
        else if contains "32-bit" filetype || contains "i386" filetype then
          if contains "64-bit" filetype then Raise AssertionError
          else Ok (Some "32")
        else if contains "64-bit" filetype then
          if contains "32-bit" filetype then Raise AssertionError
          else Ok (Some "64")
        else Ok None.
Proof.
  unfold archOfBinary, and_then. intros H.
  destruct (captureStdout P ["file"; binary] no_kwargs)
    as [[unsplitFiletype code]|e]; [|discriminate H].
  cbn [fst] in H.
  destruct (nth_error (split_1 ":" unsplitFiletype) 1) as [filetype|] eqn:Hft;
    [|discriminate H].
  exists unsplitFiletype, code, filetype. auto.
Qed.

(** X17: off Windows an answer of [archOfBinary] is backed by the
    description: "32" means it has "32-bit" or "i386" and no "64-bit",
    "64" means it has "64-bit" and neither "32-bit" nor "i386", and None
    means it has none of the three; it never is a universal binary. *)
Theorem archOfBinary_sound {Env} (P : Subprocesses Env) binary arch :
  isWin P = false ->
  archOfBinary P binary = Ok arch ->
  exists unsplitFiletype code filetype,
    captureStdout P ["file"; binary] no_kwargs = Ok (unsplitFiletype, code) /\
    nth_error (split_1 ":" unsplitFiletype) 1 = Some filetype /\
    contains "universal binary" filetype = false /\
    ((arch = Some "32" /\
      contains "32-bit" filetype || contains "i386" filetype = true /\
      contains "64-bit" filetype = false) \/
     (arch = Some "64" /\
      contains "64-bit" filetype = true /\
      contains "32-bit" filetype = false /\
      contains "i386" filetype = false) \/
     (arch = None /\
      contains "32-bit" filetype = false /\
      contains "i386" filetype = false /\
      contains "64-bit" filetype = false)).
Proof.
  intros Hwin H.
  destruct (archOfBinary_inv P binary arch H)
    as (unsplitFiletype & code & filetype & Hfile & Hft & Hres).
  exists unsplitFiletype, code, filetype.
  rewrite Hwin in Hres.
  destruct (contains "universal binary" filetype); [discriminate Hres|].
  destruct (contains "32-bit" filetype) eqn:H32;
    destruct (contains "i386" filetype) eqn:H386;
    destruct (contains "64-bit" filetype) eqn:H64;
    cbn in Hres; try discriminate Hres;
    inversion Hres; subst arch; repeat split; auto 10.
Qed.

Lemma archOfBinary_sound_witness :
  exists unsplitFiletype code filetype,
    captureStdout (sample_probe false false
                     "js: ELF 64-bit LSB executable, x86-64" "42" 0)
      ["file"; "js"] no_kwargs = Ok (unsplitFiletype, code) /\
    nth_error (split_1 ":" unsplitFiletype) 1 = Some filetype /\
    contains "universal binary" filetype = false /\
    ((Some "64" = Some "32" /\
      contains "32-bit" filetype || contains "i386" filetype = true /\
      contains "64-bit" filetype = false) \/
     (Some "64" = Some "64" /\
      contains "64-bit" filetype = true /\
      contains "32-bit" filetype = false /\
      contains "i386" filetype = false) \/
     (Some "64" = None /\
      contains "32-bit" filetype = false /\
      contains "i386" filetype = false /\
      contains "64-bit" filetype = false)).
Proof.
  apply (archOfBinary_sound
           (sample_probe false false
              "js: ELF 64-bit LSB executable, x86-64" "42" 0) "js" (Some "64")).
  - reflexivity.
  - reflexivity.
Defined.

(** X18: on Windows [archOfBinary] never returns None: when it returns, the
    description names a PE console executable and the answer is "32" for
    an "Intel 80386 32-bit" one and "64" for every other. *)
Theorem archOfBinary_windows {Env} (P : Subprocesses Env) binary arch :
  isWin P = true ->
  archOfBinary P binary = Ok arch ->
  exists unsplitFiletype code filetype,
    captureStdout P ["file"; binary] no_kwargs = Ok (unsplitFiletype, code) /\
    nth_error (split_1 ":" unsplitFiletype) 1 = Some filetype /\
    contains "PE executable for MS Windows (console)" filetype = true /\
    ((arch = Some "32" /\ contains "Intel 80386 32-bit" filetype = true) \/
     (arch = Some "64" /\ contains "Intel 80386 32-bit" filetype = false)).
Proof.
  intros Hwin H.
  destruct (archOfBinary_inv P binary arch H)
    as (unsplitFiletype & code & filetype & Hfile & Hft & Hres).
  exists unsplitFiletype, code, filetype.
  rewrite Hwin in Hres.
  destruct (contains "PE executable for MS Windows (console)" filetype);
    [|discriminate Hres].
  destruct (contains "Intel 80386 32-bit" filetype);
    cbn in Hres; inversion Hres; subst arch; auto 10.
Qed.

Lemma archOfBinary_windows_witness :
  exists unsplitFiletype code filetype,
    captureStdout
      (sample_probe true false
         "js.exe: PE executable for MS Windows (console) Mono/.Net assembly"
         "42" 0)
      ["file"; "js.exe"] no_kwargs = Ok (unsplitFiletype, code) /\
    nth_error (split_1 ":" unsplitFiletype) 1 = Some filetype /\
    contains "PE executable for MS Windows (console)" filetype = true /\
    ((Some "64" = Some "32" /\
      contains "Intel 80386 32-bit" filetype = true) \/
     (Some "64" = Some "64" /\
      contains "Intel 80386 32-bit" filetype = false)).
Proof.
  apply (archOfBinary_windows
           (sample_probe true false
              "js.exe: PE executable for MS Windows (console) Mono/.Net assembly"
              "42" 0) "js.exe" (Some "64")).
  - reflexivity.
  - reflexivity.
Defined.

(** X19: off Windows, a description that is no universal binary and has
    "64-bit" together with "32-bit" or "i386" makes [archOfBinary] fail
    its assertion. *)
Theorem archOfBinary_conflict {Env} (P : Subprocesses Env)
  binary unsplitFiletype code filetype :
  isWin P = false ->
  captureStdout P ["file"; binary] no_kwargs = Ok (unsplitFiletype, code) ->
  nth_error (split_1 ":" unsplitFiletype) 1 = Some filetype ->
  contains "universal binary" filetype = false ->
  contains "64-bit" filetype = true ->
  contains "32-bit" filetype || contains "i386" filetype = true ->
  archOfBinary P binary = Raise AssertionError.
Proof.
  intros Hwin Hfile Hft Huni H64 H32.
  unfold archOfBinary, and_then. rewrite Hfile. cbn [fst].
  now rewrite Hft, Hwin, Huni, H32, H64.
Qed.

Lemma archOfBinary_conflict_witness :
  archOfBinary
    (sample_probe false false
       "js: Mach-O 64-bit executable i386" "42" 0) "js"
  = Raise AssertionError.
Proof.
  apply (archOfBinary_conflict
           (sample_probe false false
              "js: Mach-O 64-bit executable i386" "42" 0)
           "js" "js: Mach-O 64-bit executable i386" 0
           " Mach-O 64-bit executable i386").
  - reflexivity.
  - reflexivity.
  - reflexivity.
  - reflexivity.
  - reflexivity.
  - reflexivity.
Defined.

(** X20: the valgrind command line starts with "valgrind", ends with the
    caller depth, carries the error exit code, has "--dsymutil=yes" exactly
    on a Mac and "--smc-check=all-non-file" exactly off ARM, and so has
    nine to eleven words. *)
Theorem constructVgCmdList_shape {Env} (P : Subprocesses Env) (errorCode : Z) :
  hd_error (constructVgCmdList P errorCode) = Some "valgrind" /\
  last (constructVgCmdList P errorCode) EmptyString = "--num-callers=50" /\
  In ("--error-exitcode=" ++ str errorCode)%string
    (constructVgCmdList P errorCode) /\
  (In "--dsymutil=yes" (constructVgCmdList P errorCode) <->
   isMac P = true) /\
  (In "--smc-check=all-non-file" (constructVgCmdList P errorCode) <->
   isARMv7l P = false) /\
  List.length (constructVgCmdList P errorCode)
  = (9 + (if isMac P then 1 else 0) + (if isARMv7l P then 0 else 1))%nat.
Proof.
  unfold constructVgCmdList.
  destruct (isMac P); destruct (isARMv7l P); cbn;
    repeat split; auto 20; try discriminate;
    intros H; repeat (destruct H as [H | H]; [discriminate H|]);
    try contradiction; try discriminate.
Qed.

(** The shell probes return what [testBinary] captured or fail as
    [shellSupports] does. *)
Lemma testJsShellOrXpcshell_unfold {Env} (P : Subprocesses Env) s :
  testJsShellOrXpcshell P s
  = match shellSupports P s ["-e"; "Components"] with
    | Ok true => Ok "xpcshell"
    | Ok false => Ok "jsShell"
    | Raise e => Raise e
    end.
Proof.
  unfold testJsShellOrXpcshell, and_then.
  destruct (shellSupports P s ["-e"; "Components"]) as [[|]|e]; reflexivity.
Qed.

(** X21: [testJsShellOrXpcshell] answers "xpcshell" when the shell exits
    with 0 on the script "Components", "jsShell" when it exits with 1, 2
    or 3, and raises for every other exit code. *)
Theorem testJsShellOrXpcshell_by_exit_code {Env} (P : Subprocesses Env)
  s output retCode :
  testBinary P s ["-e"; "Components"] false = Ok (output, retCode) ->
  (retCode = 0 -> testJsShellOrXpcshell P s = Ok "xpcshell") /\
  (1 <= retCode <= 3 -> testJsShellOrXpcshell P s = Ok "jsShell") /\
  (retCode < 0 \/ 3 < retCode ->
   testJsShellOrXpcshell P s
   = Raise (Exception
       ("Unexpected exit code in shellSupports " ++ str retCode)%string)).
Proof.
  intros Htest.
  rewrite testJsShellOrXpcshell_unfold, shellSupports_unfold, Htest.
  split; [|split]; intros H.
  - subst retCode. reflexivity.
  - destruct (Z.eqb_spec retCode 0) as [Heq|_]; [lia|].
    destruct (Z.leb_spec 1 retCode); [|lia].
    destruct (Z.leb_spec retCode 3); [|lia].
    reflexivity.
  - destruct (Z.eqb_spec retCode 0) as [Heq|_]; [lia|].
    destruct (Z.leb_spec 1 retCode); destruct (Z.leb_spec retCode 3);
      cbn [andb]; try reflexivity; lia.
Qed.

Lemma testJsShellOrXpcshell_by_exit_code_witness :
  testJsShellOrXpcshell (sample_shell "[object nsXPCComponents]" 0) "xpcshell"
  = Ok "xpcshell" /\
  testJsShellOrXpcshell (sample_shell "ReferenceError" 3) "js"
  = Ok "jsShell" /\
  testJsShellOrXpcshell (sample_shell "Segmentation fault" (-11)) "js"
  = Raise (Exception
      ("Unexpected exit code in shellSupports " ++ str (-11))%string).
Proof.
  split; [|split].
  - apply (testJsShellOrXpcshell_by_exit_code
             (sample_shell "[object nsXPCComponents]" 0) "xpcshell"
             "[object nsXPCComponents]" 0); reflexivity.
  - apply (testJsShellOrXpcshell_by_exit_code
             (sample_shell "ReferenceError" 3) "js" "ReferenceError" 3);
      [reflexivity|lia].
  - apply (testJsShellOrXpcshell_by_exit_code
             (sample_shell "Segmentation fault" (-11)) "js"
             "Segmentation fault" (-11)); [reflexivity|left; lia].
Defined.

Section VerifyFacts.

Context {Env : Type}.
Variable P : Subprocesses Env.
Variable path_exists : string -> bool.

Lemma assert_that_inv (cond : bool) (u : unit) :
  assert_that cond = Ok u -> cond = true.
Proof. destruct cond; [reflexivity|discriminate]. Qed.

Lemma arch_eqb_eq (arch : option string) (expected : string) :
  arch_eqb arch expected = true <-> arch = Some expected.
Proof.
  destruct arch as [a|]; simpl.
  - rewrite String.eqb_eq. split; [now intros -> | now intros [= ->]].
  - split; discriminate.
Qed.

(** [verifyBinary] step by step. *)
Lemma verifyBinary_unfold (sh : CompiledShell) :
  verifyBinary P path_exists sh
  = let path := getShellBaseTempDirWithName sh in
    let options := buildOptions sh in
    match archOfBinary P path with
    | Raise e => Raise e
    | Ok arch =>
      if negb (arch_eqb arch (if enable32 options then "32" else "64"))
      then Raise AssertionError else
      match queryBuildConfiguration P path "debug" with
      | Raise e => Raise e
      | Ok dbg =>
        if negb (Bool.eqb dbg (enableDbg options))
        then Raise AssertionError else
        match (if isARMv7l P then
                 match testIsHardFpShellARM P path_exists path with
                 | Raise e => Raise e
                 | Ok hardfp =>
                     assert_that (Bool.eqb hardfp (enableHardFp options))
                 end
               else Ok tt) with
        | Raise e => Raise e
        | Ok _ =>
          match testGetBuildConfiguration P path with
          | Raise e => Raise e
          | Ok false => Ok tt
          | Ok true =>
            match queryBuildConfiguration P path "more-deterministic" with
            | Raise e => Raise e
            | Ok determ =>
              if negb (Bool.eqb determ (enableMoreDeterministic options))
              then Raise AssertionError else
              match queryBuildConfiguration P path "asan" with
              | Raise e => Raise e
              | Ok asan =>
                  assert_that (Bool.eqb asan (buildWithAsan options))
              end
            end
          end
        end
      end
    end.
Proof.
  unfold verifyBinary, and_then, assert_that. cbv zeta.
  destruct (archOfBinary P _) as [arch|e]; [|reflexivity].
  destruct (arch_eqb arch _); [|reflexivity]. cbn [negb].
  destruct (queryBuildConfiguration P _ "debug") as [dbg|e]; [|reflexivity].
  destruct (Bool.eqb dbg _); [|reflexivity]. cbn [negb].
  destruct (isARMv7l P).
  - destruct (testIsHardFpShellARM P path_exists _) as [hardfp|e];
      [|reflexivity].
    destruct (Bool.eqb hardfp _); [|reflexivity].
    destruct (testGetBuildConfiguration P _) as [[|]|e]; try reflexivity.
    destruct (queryBuildConfiguration P _ "more-deterministic")
      as [determ|e]; [|reflexivity].
    destruct (Bool.eqb determ _); reflexivity.
  - destruct (testGetBuildConfiguration P _) as [[|]|e]; try reflexivity.
    destruct (queryBuildConfiguration P _ "more-deterministic")
      as [determ|e]; [|reflexivity].
    destruct (Bool.eqb determ _); reflexivity.
Qed.

End VerifyFacts.

(** X22: when [verifyBinary] passes, the binary is what the build options
    say: its architecture is "32" or "64" as [enable32] asks, its debug
    flag equals [enableDbg], on ARM its hard-float test equals
    [enableHardFp], and when the shell supports getBuildConfiguration its
    more-deterministic and asan flags equal the two options. *)
Theorem verifyBinary_sound {Env} (P : Subprocesses Env)
  (path_exists : string -> bool) (sh : CompiledShell) (u : unit) :
  verifyBinary P path_exists sh = Ok u ->
  archOfBinary P (getShellBaseTempDirWithName sh)
  = Ok (Some (if enable32 (buildOptions sh) then "32" else "64")) /\
  queryBuildConfiguration P (getShellBaseTempDirWithName sh) "debug"
  = Ok (enableDbg (buildOptions sh)) /\
  (isARMv7l P = true ->
   testIsHardFpShellARM P path_exists (getShellBaseTempDirWithName sh)
   = Ok (enableHardFp (buildOptions sh))) /\
  exists supported,
    testGetBuildConfiguration P (getShellBaseTempDirWithName sh)
    = Ok supported /\
    (supported = true ->
     queryBuildConfiguration P (getShellBaseTempDirWithName sh)
       "more-deterministic"
     = Ok (enableMoreDeterministic (buildOptions sh)) /\
     queryBuildConfiguration P (getShellBaseTempDirWithName sh) "asan"
     = Ok (buildWithAsan (buildOptions sh))).
Proof.
  rewrite verifyBinary_unfold. cbv zeta. intros H.
  destruct (archOfBinary P _) as [arch|e]; [|discriminate H].
  destruct (arch_eqb arch _) eqn:Harch; [|discriminate H].
  apply arch_eqb_eq in Harch. subst arch. cbn [negb] in H.
  destruct (queryBuildConfiguration P _ "debug") as [dbg|e];
    [|discriminate H].
  destruct (Bool.eqb dbg _) eqn:Hdbg; [|discriminate H].
  apply Bool.eqb_prop in Hdbg. subst dbg. cbn [negb] in H.
  split; [reflexivity|]. split; [reflexivity|].
  assert (Harm : isARMv7l P = true ->
                 testIsHardFpShellARM P path_exists
                   (getShellBaseTempDirWithName sh)
                 = Ok (enableHardFp (buildOptions sh))).
  { intros Hisarm. rewrite Hisarm in H.
    destruct (testIsHardFpShellARM P path_exists _) as [hardfp|e];
      [|discriminate H].
    destruct (Bool.eqb hardfp _) eqn:Hfp; [|discriminate H].
    apply Bool.eqb_prop in Hfp. now subst hardfp. }
  split; [exact Harm|]. clear Harm.
  destruct (if isARMv7l P then _ else _) as [_u|e]; [|discriminate H].
  destruct (testGetBuildConfiguration P _) as [[|]|e]; [| |discriminate H].
  - exists true. split; [reflexivity|]. intros _.
    destruct (queryBuildConfiguration P _ "more-deterministic")
      as [determ|e]; [|discriminate H].
    destruct (Bool.eqb determ _) eqn:Hdet; [|discriminate H].
    apply Bool.eqb_prop in Hdet. subst determ. cbn [negb] in H.
    destruct (queryBuildConfiguration P _ "asan") as [asan|e];
      [|discriminate H].
    apply assert_that_inv in H. apply Bool.eqb_prop in H. now subst asan.
  - exists false. split; [reflexivity|discriminate].
Qed.

Lemma verifyBinary_sound_witness :
  archOfBinary
    (sample_probe false true "js: ELF 32-bit LSB executable, ARM" "false" 0)
    "js"
  = Ok (Some "32") /\
  queryBuildConfiguration
    (sample_probe false true "js: ELF 32-bit LSB executable, ARM" "false" 0)
    "js" "debug"
  = Ok false /\
  testIsHardFpShellARM
    (sample_probe false true "js: ELF 32-bit LSB executable, ARM" "false" 0)
    (fun _ => true) "js"
  = Ok false /\
  queryBuildConfiguration
    (sample_probe false true "js: ELF 32-bit LSB executable, ARM" "false" 0)
    "js" "more-deterministic"
  = Ok false /\
  queryBuildConfiguration
    (sample_probe false true "js: ELF 32-bit LSB executable, ARM" "false" 0)
    "js" "asan"
  = Ok false.
Proof.
  destruct (verifyBinary_sound
              (sample_probe false true
                 "js: ELF 32-bit LSB executable, ARM" "false" 0)
              (fun _ => true)
              {| getShellBaseTempDirWithName := "js";
                 buildOptions := {| enable32 := true; enableDbg := false;
                                    enableHardFp := false;
                                    enableMoreDeterministic := false;
                                    buildWithAsan := false |} |}
              tt eq_refl)
    as (Harch & Hdbg & Hfp & supported & Hsupported & Hflags).
  assert (Hyes : supported = true).
  { cbv in Hsupported. now inversion Hsupported. }
  destruct (Hflags Hyes) as [Hdet Hasan].
  split; [exact Harch|]. split; [exact Hdbg|].
  split; [exact (Hfp eq_refl)|]. split; [exact Hdet | exact Hasan].
Defined.

(** X23: a binary whose architecture is not the one the build options ask
    for, or is not recognised at all, fails [verifyBinary] with an
    AssertionError before any flag is looked at. *)
Theorem verifyBinary_wrong_architecture {Env} (P : Subprocesses Env)
  (path_exists : string -> bool) (sh : CompiledShell) (arch : option string) :
  archOfBinary P (getShellBaseTempDirWithName sh) = Ok arch ->
  arch <> Some (if enable32 (buildOptions sh) then "32" else "64") ->
  verifyBinary P path_exists sh = Raise AssertionError.
Proof.
  intros Harch Hwrong. rewrite verifyBinary_unfold. cbv zeta.
  rewrite Harch.
  destruct (arch_eqb arch _) eqn:Heq; [|reflexivity].
  apply arch_eqb_eq in Heq. contradiction.
Qed.

Lemma verifyBinary_wrong_architecture_witness :
  verifyBinary (sample_probe false false "js: ASCII text" "false" 0)
    (fun _ => true)
    {| getShellBaseTempDirWithName := "js";
       buildOptions := {| enable32 := false; enableDbg := false;
                          enableHardFp := false;
                          enableMoreDeterministic := false;
                          buildWithAsan := false |} |}
  = Raise AssertionError.
Proof.
  apply (verifyBinary_wrong_architecture
           (sample_probe false false "js: ASCII text" "false" 0)
           (fun _ => true)
           {| getShellBaseTempDirWithName := "js";
              buildOptions := {| enable32 := false; enableDbg := false;
                                 enableHardFp := false;
                                 enableMoreDeterministic := false;
                                 buildWithAsan := false |} |}
           None).
  - reflexivity.
  - discriminate.
Defined.

(** X24: for a shell that does not support getBuildConfiguration, the
    more-deterministic and asan options are not checked: two shells at the
    same path that agree on the other options get the same verdict. *)
Theorem verifyBinary_skips_unsupported_flags {Env} (P : Subprocesses Env)
  (path_exists : string -> bool) (sh sh' : CompiledShell) :
  getShellBaseTempDirWithName sh = getShellBaseTempDirWithName sh' ->
  enable32 (buildOptions sh) = enable32 (buildOptions sh') ->
  enableDbg (buildOptions sh) = enableDbg (buildOptions sh') ->
  enableHardFp (buildOptions sh) = enableHardFp (buildOptions sh') ->
  testGetBuildConfiguration P (getShellBaseTempDirWithName sh) = Ok false ->
  verifyBinary P path_exists sh = verifyBinary P path_exists sh'.
Proof.
  intros Hpath H32 Hdbg Hfp Hunsupported.
  rewrite !verifyBinary_unfold. cbv zeta.
  rewrite <- Hpath, <- H32, <- Hdbg, <- Hfp, Hunsupported. reflexivity.
Qed.

Lemma verifyBinary_skips_unsupported_flags_witness :
  verifyBinary
    (sample_probe false false "js: ELF 64-bit LSB executable" "false" 3)
    (fun _ => true)
    {| getShellBaseTempDirWithName := "js";
       buildOptions := {| enable32 := false; enableDbg := false;
                          enableHardFp := false;
                          enableMoreDeterministic := false;
                          buildWithAsan := false |} |}
  = verifyBinary
      (sample_probe false false "js: ELF 64-bit LSB executable" "false" 3)
      (fun _ => true)
      {| getShellBaseTempDirWithName := "js";
         buildOptions := {| enable32 := false; enableDbg := false;
                            enableHardFp := false;
                            enableMoreDeterministic := true;
                            buildWithAsan := true |} |}.
Proof.
  apply (verifyBinary_skips_unsupported_flags
           (sample_probe false false "js: ELF 64-bit LSB executable" "false" 3)
           (fun _ => true)).
  - reflexivity.
  - reflexivity.
  - reflexivity.
  - reflexivity.
  - reflexivity.
Defined.

(** X25: on ARM, a binary that passes the architecture and debug checks
    still fails [verifyBinary] when /usr/bin/readelf does not exist, with
    the exception "readelf is not found.". *)
Theorem verifyBinary_needs_readelf {Env} (P : Subprocesses Env)
  (path_exists : string -> bool) (sh : CompiledShell) :
  isARMv7l P = true ->
  path_exists "/usr/bin/readelf" = false ->
  archOfBinary P (getShellBaseTempDirWithName sh)
  = Ok (Some (if enable32 (buildOptions sh) then "32" else "64")) ->
  queryBuildConfiguration P (getShellBaseTempDirWithName sh) "debug"
  = Ok (enableDbg (buildOptions sh)) ->
  verifyBinary P path_exists sh = Raise (Exception "readelf is not found.").
Proof.
  intros Harm Hreadelf Harch Hdbg.
  rewrite verifyBinary_unfold. cbv zeta.
  rewrite Harch, Hdbg, Harm.
  unfold testIsHardFpShellARM. rewrite Hreadelf.
  rewrite (proj2 (arch_eqb_eq _ _) eq_refl), Bool.eqb_reflx. reflexivity.
Qed.

Lemma verifyBinary_needs_readelf_witness :
  verifyBinary
    (sample_probe false true "js: ELF 32-bit LSB executable, ARM" "false" 0)
    (fun _ => false)
    {| getShellBaseTempDirWithName := "js";
       buildOptions := {| enable32 := true; enableDbg := false;
                          enableHardFp := true;
                          enableMoreDeterministic := false;
                          buildWithAsan := false |} |}
  = Raise (Exception "readelf is not found.").
Proof.
  apply (verifyBinary_needs_readelf
           (sample_probe false true
              "js: ELF 32-bit LSB executable, ARM" "false" 0)
           (fun _ => false)).
  - reflexivity.
  - reflexivity.
  - reflexivity.
  - reflexivity.
Defined.

(** X26: the run-time library names are left undefined, so that building
    [ALL_RUN_LIBS] fails when the module is imported, exactly when the
    operating system is not "nt" and the platform is neither "Darwin" nor
    "Linux". *)
Theorem ALL_RUN_LIBS_undefined_iff (os_name platform_system : string)
  (isMozBuild64 : bool) :
  ALL_RUN_LIBS os_name platform_system isMozBuild64 = None <->
  os_name <> "nt" /\ platform_system <> "Darwin" /\
  platform_system <> "Linux".
Proof.
  unfold ALL_RUN_LIBS, RUN_NSPR_LIB, RUN_PLDS_LIB, RUN_PLC_LIB.
  destruct (String.eqb_spec os_name "nt") as [Hnt|Hnt];
    destruct (String.eqb_spec platform_system "Darwin") as [Hd|Hd];
    destruct (String.eqb_spec platform_system "Linux") as [Hl|Hl];
    (split; [intros H; try discriminate H; auto
            | intros (H1 & H2 & H3); try reflexivity; contradiction]).
Qed.

(** The names on the three supported kinds of platform. *)
Example libs_on_linux :
  ALL_COMPILE_LIBS "posix" false = ("libnspr4.a", "libplds4.a", "libplc4.a") /\
  ALL_RUN_LIBS "posix" "Linux" false
  = Some ("libnspr4.so", "libplds4.so", "libplc4.so").
Proof. split; reflexivity. Qed.

Example libs_on_mac :
  ALL_RUN_LIBS "posix" "Darwin" false
  = Some ("libnspr4.dylib", "libplds4.dylib", "libplc4.dylib").
Proof. reflexivity. Qed.

Example libs_on_windows :
  ALL_COMPILE_LIBS "nt" true = ("libnspr4.lib", "libplds4.lib", "libplc4.lib") /\
  ALL_RUN_LIBS "nt" "Windows" false
  = Some ("nspr4.dll", "plds4.dll", "plc4.dll").
Proof. split; reflexivity. Qed.
